(** * Stock Data Analyzer (streamlit_tab.py): a shallow embedding

    The script fetches price data and company metadata, projects five
    fundamental figures out of the metadata, formats them as text, sends a
    prompt to a completion endpoint and renders everything in three tabs.

    Python values are an inductive type, dicts are [gmap]s with string keys,
    exceptions are an explicit error type, and the part of the script that
    talks to the provider, the model and the page runs in a small monad that
    records every request and every rendered element in program order. *)

From Stdlib Require Import String Ascii List ZArith Lia.
From stdpp Require Import base option list gmap strings pretty.
Import ListNotations.

Set Warnings "-register-all".
Open Scope string_scope.
Open Scope list_scope.

(** ** Python values *)

(** The values the provider's metadata and the data frames hold.  A float is
    carried by the text Python prints for it (its [repr], which identifies
    the float): the script never computes with a float, it only prints it or
    asks whether it is NaN. *)
Inductive pyval :=
  | VNone
  | VBool (b : bool)
  | VInt (n : Z)
  | VFloat (repr : string)
  | VStr (s : string)
  | VList (l : list pyval)
  | VDict (d : gmap string pyval).

Inductive exn :=
  | KeyError (key : string)
  | TypeError
  | ValueError (msg : string)
  | ExternalError (msg : string).

(** What a Python expression evaluates to: a value or a raised exception. *)
Inductive outcome (A : Type) :=
  | Ok (a : A)
  | Raise (e : exn).
Arguments Ok {A} a.
Arguments Raise {A} e.

#[global] Instance outcome_ret : MRet outcome := fun A a => Ok a.
#[global] Instance outcome_bind : MBind outcome := fun A B f m =>
  match m with
  | Ok a => f a
  | Raise e => Raise e
  end.

Definition is_ok {A} (o : outcome A) : bool :=
  match o with Ok _ => true | Raise _ => false end.

Definition LF : string := String "010"%char "".
Definition DQUOTE : string := String "034"%char "".

(** [d.get(key, dflt)] on a dict. *)
Definition dict_get (d : gmap string pyval) (key : string) (dflt : pyval) : pyval :=
  default dflt (d !! key).

(** [d[key]] on a dict. *)
Definition dict_getitem (d : gmap string pyval) (key : string) : outcome pyval :=
  match d !! key with
  | Some v => Ok v
  | None => Raise (KeyError key)
  end.

(** [v[key]] with a string key on any value: only a dict can be indexed by a
    string. *)
Definition getitem (v : pyval) (key : string) : outcome pyval :=
  match v with
  | VDict d => dict_getitem d key
  | _ => Raise TypeError
  end.

(** ** extract_specific_fundamental_data *)

Definition extract_specific_fundamental_data (details : gmap string pyval)
  : gmap string pyval :=
  {[ "Current Price (Harga Saham Saat Ini)" := dict_get details "currentPrice" (VStr "N/A");
     "Market Cap (Kapitalisasi Pasar)" := dict_get details "marketCap" (VStr "N/A");
     "Price to Earnings Ratio (P/E Ratio)" :=
       VDict {[ "Trailing P/E" := dict_get details "trailingPE" (VStr "N/A");
                "Forward P/E" := dict_get details "forwardPE" (VStr "N/A") ]};
     "Dividend Yield (Hasil Dividen)" := dict_get details "dividendYield" (VStr "N/A");
     "Return on Equity (ROE)" := dict_get details "returnOnEquity" (VStr "N/A") ]}.

(** A place in the record: a top-level key, or a key of a nested dict. *)
Inductive slot :=
  | Top (key : string)
  | Nested (key sub : string).

Definition slot_get (sd : gmap string pyval) (s : slot) : option pyval :=
  match s with
  | Top k => sd !! k
  | Nested k sub =>
      match sd !! k with
      | Some (VDict d) => d !! sub
      | _ => None
      end
  end.

(** The provider fields the extractor reads, each with the place it fills. *)
Definition tracked_fields : list (string * slot) :=
  [ ("currentPrice", Top "Current Price (Harga Saham Saat Ini)");
    ("marketCap", Top "Market Cap (Kapitalisasi Pasar)");
    ("trailingPE", Nested "Price to Earnings Ratio (P/E Ratio)" "Trailing P/E");
    ("forwardPE", Nested "Price to Earnings Ratio (P/E Ratio)" "Forward P/E");
    ("dividendYield", Top "Dividend Yield (Hasil Dividen)");
    ("returnOnEquity", Top "Return on Equity (ROE)") ].

Definition top_level_keys : gset string :=
  {[ "Current Price (Harga Saham Saat Ini)";
     "Market Cap (Kapitalisasi Pasar)";
     "Price to Earnings Ratio (P/E Ratio)";
     "Dividend Yield (Hasil Dividen)";
     "Return on Equity (ROE)" ]}.

Section Formatter.

(** [str] of a list or a dict (Python's container repr) is the interpreter's
    own and is not modelled. *)
Variable container_repr : pyval -> string.

(** What an f-string field [{v}] prints. *)
Definition py_str (v : pyval) : string :=
  match v with
  | VNone => "None"
  | VBool true => "True"
  | VBool false => "False"
  | VInt n => pretty n
  | VFloat repr => repr
  | VStr s => s
  | VList _ | VDict _ => container_repr v
  end.

(** ** format_specific_fundamental_data *)

(** The text the f-string builds from the six printed values. *)
Definition fundamental_text (cp mc tpe fpe dy roe : string) : string :=
  "**Current Price (Harga Saham Saat Ini)**: " +:+ cp +:+ " IDR" +:+ LF +:+ LF +:+
  "**Market Cap (Kapitalisasi Pasar)**: " +:+ mc +:+ " IDR" +:+ LF +:+ LF +:+
  "**Price to Earnings Ratio (P/E Ratio)**:" +:+ LF +:+
  "  - Trailing P/E: " +:+ tpe +:+ LF +:+
  "  - Forward P/E: " +:+ fpe +:+ LF +:+ LF +:+
  "**Dividend Yield (Hasil Dividen)**: " +:+ dy +:+ "%" +:+ LF +:+ LF +:+
  "**Return on Equity (ROE)**: " +:+ roe +:+ "%".

(** The subscripts are evaluated left to right; the first one that fails
    raises. *)
Definition format_specific_fundamental_data (specific_data : gmap string pyval)
  : outcome string :=
  cp ← dict_getitem specific_data "Current Price (Harga Saham Saat Ini)";
  mc ← dict_getitem specific_data "Market Cap (Kapitalisasi Pasar)";
  pe1 ← dict_getitem specific_data "Price to Earnings Ratio (P/E Ratio)";
  tpe ← getitem pe1 "Trailing P/E";
  pe2 ← dict_getitem specific_data "Price to Earnings Ratio (P/E Ratio)";
  fpe ← getitem pe2 "Forward P/E";
  dy ← dict_getitem specific_data "Dividend Yield (Hasil Dividen)";
  roe ← dict_getitem specific_data "Return on Equity (ROE)";
  mret (fundamental_text (py_str cp) (py_str mc) (py_str tpe) (py_str fpe)
          (py_str dy) (py_str roe)).

End Formatter.

(** ** Data frames and series (pandas) *)

(** A frame has row labels and labelled columns whose cells follow the row
    labels.  The provider's column labels and line items are distinct; a
    lookup takes the first one of a given name. *)
Record DataFrame := {
  df_index : list string;
  df_columns : list (string * list pyval)
}.

(** A series: labels with their values, in order. *)
Abbreviation Series := (list (string * pyval)).

Definition series_index (s : Series) : list string := s.*1.
Definition series_values (s : Series) : list pyval := s.*2.

Fixpoint assoc {A} (key : string) (l : list (string * A)) : option A :=
  match l with
  | [] => None
  | (k, v) :: rest => if decide (k = key) then Some v else assoc key rest
  end.

Definition df_column (df : DataFrame) (name : string) : outcome (list pyval) :=
  match assoc name (df_columns df) with
  | Some col => Ok col
  | None => Raise (KeyError name)
  end.

Fixpoint select_columns (df : DataFrame) (names : list string)
  : outcome (list (string * list pyval)) :=
  match names with
  | [] => Ok []
  | n :: rest =>
      col ← df_column df n;
      cols ← select_columns df rest;
      mret ((n, col) :: cols)
  end.

(** [df[[n1, n2, ...]]]: the frame of those columns, or KeyError (here with
    the first missing name). *)
Definition df_select (df : DataFrame) (names : list string) : outcome DataFrame :=
  cols ← select_columns df names;
  mret {| df_index := df_index df; df_columns := cols |}.

(** [df[name]]: one column as a series over the row labels. *)
Definition df_getitem (df : DataFrame) (name : string) : outcome Series :=
  col ← df_column df name;
  mret (zip (df_index df) col).

(** [label in df.index] *)
Definition in_index (label : string) (df : DataFrame) : bool :=
  bool_decide (label ∈ df_index df).

Definition NaN : pyval := VFloat "nan".

(** [df.loc[label]]: one row as a series over the column labels.  This is
    what pandas gives for a label that occurs once in the index of a frame
    whose columns share one dtype, see [statement_frame] below; for a
    repeated label pandas gives a frame of all the rows of that label, and a
    row across columns of unlike numeric dtypes is converted to their common
    dtype.  Of these only the one-row case is modelled: on a frame outside
    [statement_frame] the function takes the first row of the label and
    leaves the cells as they are stored. *)
Definition df_loc (df : DataFrame) (label : string) : outcome Series :=
  match list_find (λ l, l = label) (df_index df) with
  | Some (i, _) =>
      Ok ((λ c : string * list pyval, (c.1, default NaN (c.2 !! i))) <$> df_columns df)
  | None => Raise (KeyError label)
  end.

(** What pandas counts as missing among the modelled values. *)
Definition isna (v : pyval) : bool :=
  match v with
  | VNone => true
  | VFloat repr => bool_decide (repr = "nan")
  | _ => false
  end.

(** [s.dropna()] *)
Definition dropna (s : Series) : Series :=
  filter (λ p : string * pyval, isna p.2 = false) s.

(** A cell of a financial statement: a float, or None. *)
Definition is_figure (v : pyval) : bool :=
  match v with VFloat _ | VNone => true | _ => false end.

(** A frame as the provider delivers a financial statement: the line items
    are distinct, every column has one cell per line item, and every cell is
    a float or None (a figure that was not reported is NaN, or None in a
    column of dtype object).  The columns of such a frame are of dtype
    float64 or object, so a row of it keeps the cells as they are stored. *)
Definition statement_frame (df : DataFrame) : Prop :=
  NoDup (df_index df) ∧
  Forall (λ c : string * list pyval,
            length c.2 = length (df_index df) ∧
            Forall (λ v, is_figure v = true) c.2)
         (df_columns df).

(** A row of figures as a series: each period with the text of its float,
    or with nothing where the cell is None. *)
Definition figure_series (figures : list (string * option string)) : Series :=
  (λ e : string * option string, (e.1, from_option VFloat VNone e.2)) <$> figures.

(** The figure was reported: it is neither None nor NaN. *)
Definition reported (figure : option string) : Prop :=
  figure ≠ None ∧ figure ≠ Some "nan".

#[global] Instance reported_dec (figure : option string) : Decision (reported figure).
Proof. unfold reported. apply _. Defined.

(** ** Figures (plotly) *)

Inductive gotrace :=
  | Candlestick (x : list string) (open_ high low close_ : Series)
  | Bar (x : list string) (y : list pyval) (name : string).

Record Figure := {
  fig_data : list gotrace;
  fig_title : option string;
  fig_xaxis_title : option string;
  fig_yaxis_title : option string
}.

Definition go_Figure (data : list gotrace) : Figure :=
  {| fig_data := data; fig_title := None;
     fig_xaxis_title := None; fig_yaxis_title := None |}.

Definition add_trace (fig : Figure) (t : gotrace) : Figure :=
  {| fig_data := fig_data fig ++ [t]; fig_title := fig_title fig;
     fig_xaxis_title := fig_xaxis_title fig;
     fig_yaxis_title := fig_yaxis_title fig |}.

Definition update_layout (fig : Figure) (title xaxis_title yaxis_title : string)
  : Figure :=
  {| fig_data := fig_data fig; fig_title := Some title;
     fig_xaxis_title := Some xaxis_title;
     fig_yaxis_title := Some yaxis_title |}.

Definition is_bar (t : gotrace) : bool :=
  match t with Bar _ _ _ => true | Candlestick _ _ _ _ _ => false end.

(** ** The outside world *)

Inductive statement_kind :=
  | IncomeStmt | QuarterlyIncomeStmt
  | BalanceSheet | QuarterlyBalanceSheet
  | Cashflow | QuarterlyCashflow.

(** The response object of the completion endpoint; [str] of it is its
    text. *)
Record CompletionResponse := {
  resp_text : string;
  resp_raw : pyval
}.

(** What the provider and the model answer to each request: a result, or an
    exception raised inside the client library (network, authentication,
    malformed response). *)
Record World := {
  yf_download : string -> string -> string -> outcome DataFrame;
  ticker_info : string -> outcome (gmap string pyval);
  ticker_statement : statement_kind -> string -> outcome DataFrame;
  llm_complete : string -> outcome CompletionResponse
}.

(** The containers of the page an element is rendered into. *)
Inductive container := Tab1 | LeftCol | RightCol | Tab2 | Tab3.

#[global] Instance container_eq_dec : EqDecision container.
Proof. solve_decision. Defined.

Inductive element :=
  | Subheader (body : string)
  | Markdown (body : string) (unsafe_allow_html : bool)
  | DataframeView (df : DataFrame)
  | Metric (label value : string)
  | PlotlyChart (fig : Figure)
  | WriteText (body : string)
  | Columns (n : nat).

(** Everything a run does that is visible from outside, in program order. *)
Inductive event :=
  | SpinnerStart (text : string)
  | SpinnerStop
  | Download (symbol start_date end_date : string)
  | FetchInfo (symbol : string)
  | FetchStatement (kind : statement_kind) (symbol : string)
  | Complete (prompt : string)
  | Render (c : container) (e : element).

(** A computation of the script: the events it produced and how it ended.
    An exception ends it at once; the events produced until then stay. *)
Record M (A : Type) := MkM {
  trace : list event;
  result : outcome A
}.
Arguments MkM {A} trace result.
Arguments trace {A} m.
Arguments result {A} m.

#[global] Instance M_ret : MRet M := fun A a => MkM [] (Ok a).
#[global] Instance M_bind : MBind M := fun A B f m =>
  match m with
  | MkM tr (Ok a) => match f a with MkM tr' r => MkM (tr ++ tr') r end
  | MkM tr (Raise e) => MkM tr (Raise e)
  end.

(** A pure Python expression inside the script. *)
Definition eval {A} (o : outcome A) : M A := MkM [] o.

(** A request to the outside world and its answer. *)
Definition request {A} (ev : event) (answer : outcome A) : M A := MkM [ev] answer.

(** A call of a [st.*] element function inside [with c:]. *)
Definition render (c : container) (e : element) : M unit :=
  MkM [Render c e] (Ok ()).

(** [with st.spinner(text): body]: the spinner is taken down when the block
    is left, also when it is left by an exception. *)
Definition with_spinner {A} (text : string) (body : M A) : M A :=
  MkM (SpinnerStart text :: trace body ++ [SpinnerStop]) (result body).

(** ** Prompt templates (llama_index PromptTemplate over Python's str.format) *)

(** One left-to-right pass over the template: text is copied, a doubled
    brace is one literal brace, and a field [{name}] is replaced by the
    keyword argument of that name.  The inserted text is not scanned again.
    [field] holds the name being read inside braces.  Conversions and format
    specifications, which the script's template does not use, are not
    modelled: such a field is looked up by its whole text. *)
Fixpoint str_format (kwargs : list (string * string)) (field : option string)
    (t : string) : outcome string :=
  match t with
  | EmptyString =>
      match field with
      | None => Ok ""
      | Some _ => Raise (ValueError "expected '}' before end of string")
      end
  | String c rest =>
      match field with
      | None =>
          if decide (c = "{"%char) then
            match rest with
            | String "{"%char rest' =>
                out ← str_format kwargs None rest'; mret (String "{"%char out)
            | _ => str_format kwargs (Some "") rest
            end
          else if decide (c = "}"%char) then
            match rest with
            | String "}"%char rest' =>
                out ← str_format kwargs None rest'; mret (String "}"%char out)
            | _ => Raise (ValueError "Single '}' encountered in format string")
            end
          else
            out ← str_format kwargs None rest; mret (String c out)
      | Some name =>
          if decide (c = "}"%char) then
            match assoc name kwargs with
            | Some v => out ← str_format kwargs None rest; mret (v +:+ out)
            | None => Raise (KeyError name)
            end
          else str_format kwargs (Some (name +:+ String c "")) rest
      end
  end.

Record PromptTemplate := { pt_template : string }.

Definition PromptTemplate_format (p : PromptTemplate) (kwargs : list (string * string))
  : outcome string :=
  str_format kwargs None (pt_template p).

(** ** analyze_stock_data *)

(** The adjacent string literals of the source, concatenated as Python
    does (there is no separator after the first one). *)
Definition template : string :=
  "Answer in bahasa indonesia" +:+
  "Analyze the following stock data using both technical and fundamental analysis:" +:+ LF +:+
  "Technical Data (Open and Close prices):" +:+ LF +:+ "{technical_data}" +:+ LF +:+ LF +:+
  "Fundamental Data:" +:+ LF +:+ "{fundamental_data}" +:+ LF +:+ LF +:+
  "Provide insights on:" +:+ LF +:+
  "1. Overall trend" +:+ LF +:+
  "2. Key technical indicators" +:+ LF +:+
  "3. Important fundamental metrics" +:+ LF +:+
  "4. Potential strengths and weaknesses" +:+ LF +:+
  "5. Any notable patterns or anomalies".

Definition analyze_stock_data (w : World) (technical_data fundamental_data : string)
  : M CompletionResponse :=
  let prompt := {| pt_template := template |} in
  formatted_prompt ← eval (PromptTemplate_format prompt
      [("technical_data", technical_data); ("fundamental_data", fundamental_data)]);
  response ← request (Complete formatted_prompt) (llm_complete w formatted_prompt);
  mret response.

(** The three parts of the template around the two fields. *)
Definition prompt_head : string :=
  "Answer in bahasa indonesia" +:+
  "Analyze the following stock data using both technical and fundamental analysis:" +:+ LF +:+
  "Technical Data (Open and Close prices):" +:+ LF.

Definition prompt_middle : string :=
  LF +:+ LF +:+ "Fundamental Data:" +:+ LF.

Definition prompt_tail : string :=
  LF +:+ LF +:+
  "Provide insights on:" +:+ LF +:+
  "1. Overall trend" +:+ LF +:+
  "2. Key technical indicators" +:+ LF +:+
  "3. Important fundamental metrics" +:+ LF +:+
  "4. Potential strengths and weaknesses" +:+ LF +:+
  "5. Any notable patterns or anomalies".

Definition prompt_text (technical_data fundamental_data : string) : string :=
  prompt_head +:+ technical_data +:+ prompt_middle +:+ fundamental_data +:+ prompt_tail.

(** [needle] occurs in [hay] as a contiguous run of characters. *)
Definition occurs_in (needle hay : string) : Prop :=
  ∃ before after, hay = before +:+ needle +:+ after.

(** ** The script, from [if analyze_button:] on *)

Record Inputs := {
  symbol : string;
  start_date : string;
  end_date : string;
  analyze_button : bool
}.

(** What the spinner block leaves in scope for the rest of the script. *)
Record Prepared := {
  stock_data : DataFrame;
  technical_data : string;
  fundamental_data_str : string;
  income_stmt : DataFrame;
  quarterly_income_stmt : DataFrame;
  balance_sheet : DataFrame;
  quarterly_balance_sheet : DataFrame;
  cashflow : DataFrame;
  quarterly_cashflow : DataFrame
}.

Definition not_found_notice : string :=
  "Row 'Total Revenue' not found in the quarterly income statement.".

Section Script.

Variable container_repr : pyval -> string.

(** [DataFrame.to_string()], pandas' text rendering of a frame. *)
Variable to_string : DataFrame -> string.

Definition fetch_statement (w : World) (kind : statement_kind) (sym : string)
  : M DataFrame :=
  request (FetchStatement kind sym) (ticker_statement w kind sym).

(** Lines 101-121: the block under the spinner. *)
Definition spinner_block (w : World) (inp : Inputs) : M Prepared :=
  with_spinner "Fetching and analyzing data..." (
    stock_data ← request (Download (symbol inp) (start_date inp) (end_date inp))
                   (yf_download w (symbol inp) (start_date inp) (end_date inp));
    info ← request (FetchInfo (symbol inp)) (ticker_info w (symbol inp));
    open_close ← eval (df_select stock_data ["Open"; "Close"]);
    let technical_data := to_string open_close in
    let fundamental_data := extract_specific_fundamental_data info in
    fundamental_data_str ← eval (format_specific_fundamental_data container_repr fundamental_data);
    income_stmt ← fetch_statement w IncomeStmt (symbol inp);
    quarterly_income_stmt ← fetch_statement w QuarterlyIncomeStmt (symbol inp);
    balance_sheet ← fetch_statement w BalanceSheet (symbol inp);
    quarterly_balance_sheet ← fetch_statement w QuarterlyBalanceSheet (symbol inp);
    cashflow ← fetch_statement w Cashflow (symbol inp);
    quarterly_cashflow ← fetch_statement w QuarterlyCashflow (symbol inp);
    render Tab1 (Columns 2);;
    mret {| stock_data := stock_data;
            technical_data := technical_data;
            fundamental_data_str := fundamental_data_str;
            income_stmt := income_stmt;
            quarterly_income_stmt := quarterly_income_stmt;
            balance_sheet := balance_sheet;
            quarterly_balance_sheet := quarterly_balance_sheet;
            cashflow := cashflow;
            quarterly_cashflow := quarterly_cashflow |}).

(** Lines 123-127. *)
Definition left_col (w : World) (inp : Inputs) (p : Prepared) : M unit :=
  render LeftCol (Subheader ("Analysis for " +:+ symbol inp));;
  analysis ← analyze_stock_data w (technical_data p) (fundamental_data_str p);
  render LeftCol
    (Markdown ("<div class=" +:+ DQUOTE +:+ "stock-analysis" +:+ DQUOTE +:+ ">" +:+
               resp_text analysis +:+ "</div>") true).

(** Lines 129-138. *)
Definition right_col (inp : Inputs) (p : Prepared) : M unit :=
  render RightCol (Subheader "Stock Data Graph");;
  open_ ← eval (df_getitem (stock_data p) "Open");
  high ← eval (df_getitem (stock_data p) "High");
  low ← eval (df_getitem (stock_data p) "Low");
  close_ ← eval (df_getitem (stock_data p) "Close");
  let fig := go_Figure [Candlestick (df_index (stock_data p)) open_ high low close_] in
  let fig := update_layout fig (symbol inp +:+ " Stock Candlestick Chart") "Date" "Price (IDR)" in
  render RightCol (PlotlyChart fig).

(** Lines 140-167. *)
Definition tab2 (p : Prepared) : M unit :=
  render Tab2 (Subheader "Stock Data");;
  render Tab2 (DataframeView (stock_data p));;
  render Tab2 (Subheader "Stock Information");;
  render Tab2 (Markdown (fundamental_data_str p) false);;
  render Tab2 (Subheader "Financial Statements");;
  render Tab2 (Metric "Income Statement" "Income Statement");;
  render Tab2 (DataframeView (income_stmt p));;
  render Tab2 (Metric "Quarterly Income Statement" "Quarterly Income Statement");;
  render Tab2 (DataframeView (quarterly_income_stmt p));;
  render Tab2 (Metric "Balance Sheet" "Balance Sheet");;
  render Tab2 (DataframeView (balance_sheet p));;
  render Tab2 (Metric "Quarterly Balance Sheet" "Quarterly Balance Sheet");;
  render Tab2 (DataframeView (quarterly_balance_sheet p));;
  render Tab2 (Metric "Cash Flow Statement" "Cash Flow Statement");;
  render Tab2 (DataframeView (cashflow p));;
  render Tab2 (Metric "Quarterly Cash Flow Statement" "Quarterly Cash Flow Statement");;
  render Tab2 (DataframeView (quarterly_cashflow p)).

(** Line 173: [quarterly_income_stmt.loc['Total Revenue'].dropna()]. *)
Definition total_revenue (q : DataFrame) : outcome Series :=
  row ← df_loc q "Total Revenue";
  mret (dropna row).

(** The figure of lines 174-176. *)
Definition revenue_figure (sym : string) (revenue : Series) : Figure :=
  let fig := go_Figure [] in
  let fig := add_trace fig
               (Bar (series_index revenue) (series_values revenue) "Total Revenue") in
  update_layout fig (sym +:+ " Total Revenue per Quarter") "Quarter" "Amount (IDR)".

(** Lines 169-179. *)
Definition tab3 (inp : Inputs) (q : DataFrame) : M unit :=
  render Tab3 (Subheader "Total Revenue per Quarter");;
  if in_index "Total Revenue" q then
    revenue ← eval (total_revenue q);
    render Tab3 (PlotlyChart (revenue_figure (symbol inp) revenue))
  else
    render Tab3 (WriteText not_found_notice).

(** Lines 98-179: one run of the script after the button was pressed.  The
    containers are entered one after the other; nothing catches an
    exception. *)
Definition on_analyze (w : World) (inp : Inputs) : M unit :=
  p ← spinner_block w inp;
  left_col w inp p;;
  right_col inp p;;
  tab2 p;;
  tab3 inp (quarterly_income_stmt p).

Definition script (w : World) (inp : Inputs) : M unit :=
  if analyze_button inp then on_analyze w inp else mret ().

End Script.

(** ** Observations on a trace *)

Definition is_complete (ev : event) : bool :=
  match ev with Complete _ => true | _ => false end.

(** How many completion requests a trace holds. *)
Definition completions (tr : list event) : nat :=
  length (List.filter is_complete tr).

(** The prompts submitted, in order. *)
Definition prompts (tr : list event) : list string :=
  omap (λ ev, match ev with Complete p => Some p | _ => None end) tr.

(** The elements rendered into one container, in order. *)
Definition rendered_in (c : container) (tr : list event) : list element :=
  omap (λ ev, match ev with
              | Render c' e => if decide (c' = c) then Some e else None
              | _ => None
              end) tr.

(** Is the event the plotting of a figure with a bar trace? *)
Definition plots_bar (ev : event) : bool :=
  match ev with
  | Render _ (PlotlyChart fig) => existsb is_bar (fig_data fig)
  | _ => false
  end.

(** Is the event a request to the provider or to the model? *)
Definition is_request (ev : event) : bool :=
  match ev with
  | Download _ _ _ | FetchInfo _ | FetchStatement _ _ | Complete _ => true
  | _ => false
  end.

(** The requests of a trace, in order. *)
Definition requests (tr : list event) : list event := List.filter is_request tr.

(** ** The events of a run, piece by piece *)

(** The events of the spinner block when every fetch succeeds. *)
Definition fetched_trace (inp : Inputs) : list event :=
  [ SpinnerStart "Fetching and analyzing data...";
    Download (symbol inp) (start_date inp) (end_date inp);
    FetchInfo (symbol inp);
    FetchStatement IncomeStmt (symbol inp);
    FetchStatement QuarterlyIncomeStmt (symbol inp);
    FetchStatement BalanceSheet (symbol inp);
    FetchStatement QuarterlyBalanceSheet (symbol inp);
    FetchStatement Cashflow (symbol inp);
    FetchStatement QuarterlyCashflow (symbol inp);
    Render Tab1 (Columns 2);
    SpinnerStop ].

(** The prompt the left column submits. *)
Definition prompt_of (p : Prepared) : string :=
  prompt_text (technical_data p) (fundamental_data_str p).

Definition analysis_header (inp : Inputs) : event :=
  Render LeftCol (Subheader ("Analysis for " +:+ symbol inp)).

Definition analysis_body (r : CompletionResponse) : event :=
  Render LeftCol
    (Markdown ("<div class=" +:+ DQUOTE +:+ "stock-analysis" +:+ DQUOTE +:+ ">" +:+
               resp_text r +:+ "</div>") true).

Definition graph_header : event := Render RightCol (Subheader "Stock Data Graph").

(** The candlestick figure of the right column: its four series are looked
    up in the order the call names them. *)
Definition candlestick_figure (inp : Inputs) (p : Prepared) : outcome Figure :=
  open_ ← df_getitem (stock_data p) "Open";
  high ← df_getitem (stock_data p) "High";
  low ← df_getitem (stock_data p) "Low";
  close_ ← df_getitem (stock_data p) "Close";
  mret (update_layout
          (go_Figure [Candlestick (df_index (stock_data p)) open_ high low close_])
          (symbol inp +:+ " Stock Candlestick Chart") "Date" "Price (IDR)").

Definition tab2_events (p : Prepared) : list event :=
  [ Render Tab2 (Subheader "Stock Data");
    Render Tab2 (DataframeView (stock_data p));
    Render Tab2 (Subheader "Stock Information");
    Render Tab2 (Markdown (fundamental_data_str p) false);
    Render Tab2 (Subheader "Financial Statements");
    Render Tab2 (Metric "Income Statement" "Income Statement");
    Render Tab2 (DataframeView (income_stmt p));
    Render Tab2 (Metric "Quarterly Income Statement" "Quarterly Income Statement");
    Render Tab2 (DataframeView (quarterly_income_stmt p));
    Render Tab2 (Metric "Balance Sheet" "Balance Sheet");
    Render Tab2 (DataframeView (balance_sheet p));
    Render Tab2 (Metric "Quarterly Balance Sheet" "Quarterly Balance Sheet");
    Render Tab2 (DataframeView (quarterly_balance_sheet p));
    Render Tab2 (Metric "Cash Flow Statement" "Cash Flow Statement");
    Render Tab2 (DataframeView (cashflow p));
    Render Tab2 (Metric "Quarterly Cash Flow Statement" "Quarterly Cash Flow Statement");
    Render Tab2 (DataframeView (quarterly_cashflow p)) ].

Definition revenue_header : event :=
  Render Tab3 (Subheader "Total Revenue per Quarter").

Definition revenue_notice : event := Render Tab3 (WriteText not_found_notice).

(** Lines 123-167: what runs between the spinner block and the third tab. *)
Definition before_tab3 (w : World) (inp : Inputs) (p : Prepared) : M unit :=
  left_col w inp p;;
  right_col inp p;;
  tab2 p.

(** ** load_lottie_url *)

(** An HTTP response as the function uses it: the status code, and what
    [r.json()] gives, the parsed body or the exception of a body that is no
    JSON. *)
Record HttpResponse := {
  status_code : Z;
  json : outcome pyval
}.

(** Lines 74-78.  [get] stands for [requests.get]: a response, or the
    exception of a request that did not go through. *)
Definition load_lottie_url (get : string -> outcome HttpResponse) (url : string)
  : outcome pyval :=
  r ← get url;
  if decide (status_code r ≠ 200%Z) then mret VNone else json r.

(** ** More observations *)

(** The top-level keys in the order the f-string subscripts them. *)
Definition template_keys : list string :=
  [ "Current Price (Harga Saham Saat Ini)";
    "Market Cap (Kapitalisasi Pasar)";
    "Price to Earnings Ratio (P/E Ratio)";
    "Dividend Yield (Hasil Dividen)";
    "Return on Equity (ROE)" ].

(** A request to the provider is made for the given symbol. *)
Definition uses_symbol (sym : string) (ev : event) : Prop :=
  match ev with
  | Download s _ _ | FetchInfo s | FetchStatement _ s => s = sym
  | _ => True
  end.

(** What happens under the spinner, in order, when nothing fails. *)
Definition fetch_events (inp : Inputs) : list event :=
  [ Download (symbol inp) (start_date inp) (end_date inp);
    FetchInfo (symbol inp);
    FetchStatement IncomeStmt (symbol inp);
    FetchStatement QuarterlyIncomeStmt (symbol inp);
    FetchStatement BalanceSheet (symbol inp);
    FetchStatement QuarterlyBalanceSheet (symbol inp);
    FetchStatement Cashflow (symbol inp);
    FetchStatement QuarterlyCashflow (symbol inp);
    Render Tab1 (Columns 2) ].

(** The statements in the order lines 113-118 fetch them. *)
Definition statement_order : list statement_kind :=
  [ IncomeStmt; QuarterlyIncomeStmt; BalanceSheet; QuarterlyBalanceSheet;
    Cashflow; QuarterlyCashflow ].

(** ** What the formatter needs of its argument *)

(** The keys the f-string subscripts: five at the top, two under the P/E
    entry, which has to be a dict. *)
Definition meets_format_keys (sd : gmap string pyval) : Prop :=
  is_Some (sd !! "Current Price (Harga Saham Saat Ini)") ∧
  is_Some (sd !! "Market Cap (Kapitalisasi Pasar)") ∧
  (∃ pe, sd !! "Price to Earnings Ratio (P/E Ratio)" = Some (VDict pe) ∧
         is_Some (pe !! "Trailing P/E") ∧ is_Some (pe !! "Forward P/E")) ∧
  is_Some (sd !! "Dividend Yield (Hasil Dividen)") ∧
  is_Some (sd !! "Return on Equity (ROE)").

(** The pieces occur in the text in this order, one after the other. *)
Fixpoint in_order (parts : list string) (text : string) : Prop :=
  match parts with
  | [] => True
  | p :: rest => ∃ before after, text = before +:+ p +:+ after ∧ in_order rest after
  end.

(** ** A provider, a model and a page to run the script against *)

Module Demo.

Definition prices : DataFrame :=
  {| df_index := ["2024-01-02"; "2024-01-03"];
     df_columns :=
       [ ("Open", [VFloat "187.15"; VFloat "184.22"]);
         ("High", [VFloat "188.44"; VFloat "185.88"]);
         ("Low", [VFloat "183.89"; VFloat "183.43"]);
         ("Close", [VFloat "185.64"; VFloat "184.25"]);
         ("Volume", [VInt 82488700; VInt 58414500]) ] |}.

Definition info : gmap string pyval :=
  {[ "symbol" := VStr "AAPL";
     "currentPrice" := VFloat "189.5";
     "marketCap" := VInt 2900000000000;
     "trailingPE" := VFloat "29.4";
     "forwardPE" := VFloat "26.1";
     "dividendYield" := VFloat "0.0052";
     "returnOnEquity" := VFloat "1.4725" ]}.

(** Metadata without a market cap and with a null dividend yield. *)
Definition sparse_info : gmap string pyval :=
  {[ "currentPrice" := VFloat "189.5";
     "trailingPE" := VFloat "29.4";
     "dividendYield" := VNone ]}.

Definition quarterly : DataFrame :=
  {| df_index := ["Total Revenue"; "Net Income"];
     df_columns :=
       [ ("2024-03-31", [VFloat "90753000000.0"; VFloat "23636000000.0"]);
         ("2023-12-31", [NaN; VFloat "33916000000.0"]);
         ("2023-09-30", [VFloat "89498000000.0"; VFloat "22956000000.0"]);
         ("2023-06-30", [VNone; NaN]) ] |}.

(** A quarterly income statement without the revenue line. *)
Definition quarterly_no_revenue : DataFrame :=
  {| df_index := ["Net Income"];
     df_columns := [ ("2024-03-31", [VFloat "23636000000.0"]) ] |}.

Definition empty_frame : DataFrame := {| df_index := []; df_columns := [] |}.

Definition statements (q : DataFrame) (kind : statement_kind) : DataFrame :=
  match kind with
  | QuarterlyIncomeStmt => q
  | _ => empty_frame
  end.

Definition answer : CompletionResponse :=
  {| resp_text := "Tren naik."; resp_raw := VNone |}.

(** Everything answers. *)
Definition world (q : DataFrame) : World :=
  {| yf_download := λ _ _ _, Ok prices;
     ticker_info := λ _, Ok info;
     ticker_statement := λ kind _, Ok (statements q kind);
     llm_complete := λ _, Ok answer |}.

(** The provider is unreachable. *)
Definition offline : World :=
  {| yf_download := λ _ _ _, Raise (ExternalError "connection refused");
     ticker_info := λ _, Raise (ExternalError "connection refused");
     ticker_statement := λ _ _, Raise (ExternalError "connection refused");
     llm_complete := λ _, Ok answer |}.

(** The provider answers, the completion endpoint rejects the key. *)
Definition llm_down : World :=
  {| yf_download := λ _ _ _, Ok prices;
     ticker_info := λ _, Ok info;
     ticker_statement := λ kind _, Ok (statements quarterly kind);
     llm_complete := λ _, Raise (ExternalError "401 invalid api key") |}.

Definition inputs : Inputs :=
  {| symbol := "AAPL"; start_date := "2024-01-01"; end_date := "2024-01-04";
     analyze_button := true |}.

(** The provider answers the download and the metadata request and then
    goes away: the statement fetches fail. *)
Definition statements_down : World :=
  {| yf_download := λ _ _ _, Ok prices;
     ticker_info := λ _, Ok info;
     ticker_statement := λ _ _, Raise (ExternalError "read timed out");
     llm_complete := λ _, Ok answer |}.

(** Stand-ins for the two renderings that are not modelled.  The frame is
    rendered as a line of column labels and one line per row, the row label
    followed by the row's cells. *)
Definition repr (v : pyval) : string := "<container>".
Definition to_string (df : DataFrame) : string :=
  String.concat LF
    (String.concat " " (df_columns df).*1 ::
     imap (λ i label,
             String.concat " "
               (label :: ((λ c : string * list pyval,
                             py_str repr (default NaN (c.2 !! i))) <$> df_columns df)))
          (df_index df)).

(** A complete record, written out. *)
Definition pe_pair : gmap string pyval :=
  {[ "Trailing P/E" := VFloat "29.4"; "Forward P/E" := VFloat "26.1" ]}.

Definition record : gmap string pyval :=
  {[ "Current Price (Harga Saham Saat Ini)" := VFloat "189.5";
     "Market Cap (Kapitalisasi Pasar)" := VInt 2900000000000;
     "Price to Earnings Ratio (P/E Ratio)" := VDict pe_pair;
     "Dividend Yield (Hasil Dividen)" := VFloat "0.0052";
     "Return on Equity (ROE)" := VFloat "1.4725" ]}.

Definition open_close : DataFrame :=
  {| df_index := ["2024-01-02"; "2024-01-03"];
     df_columns :=
       [ ("Open", [VFloat "187.15"; VFloat "184.22"]);
         ("Close", [VFloat "185.64"; VFloat "184.25"]) ] |}.

(** What the spinner block leaves behind in [world q]. *)
Definition prepared (q : DataFrame) : Prepared :=
  {| stock_data := prices;
     technical_data := to_string open_close;
     fundamental_data_str :=
       fundamental_text "189.5" "2900000000000" "29.4" "26.1" "0.0052" "1.4725";
     income_stmt := empty_frame;
     quarterly_income_stmt := q;
     balance_sheet := empty_frame;
     quarterly_balance_sheet := empty_frame;
     cashflow := empty_frame;
     quarterly_cashflow := empty_frame |}.

(** The same two days with the same Open and Close, other highs and lows
    and no volume. *)
Definition prices_other : DataFrame :=
  {| df_index := ["2024-01-02"; "2024-01-03"];
     df_columns :=
       [ ("Close", [VFloat "185.64"; VFloat "184.25"]);
         ("High", [VFloat "190.0"; VFloat "191.0"]);
         ("Low", [VFloat "180.0"; VFloat "181.0"]);
         ("Open", [VFloat "187.15"; VFloat "184.22"]) ] |}.

Definition other_answer : CompletionResponse :=
  {| resp_text := "Tren turun."; resp_raw := VNone |}.

(** Another provider and another model: the same metadata, other statements,
    other highs and lows, another answer. *)
Definition world_other : World :=
  {| yf_download := λ _ _ _, Ok prices_other;
     ticker_info := λ _, Ok info;
     ticker_statement := λ _ _, Ok quarterly;
     llm_complete := λ _, Ok other_answer |}.

Definition prepared_other : Prepared :=
  {| stock_data := prices_other;
     technical_data := to_string open_close;
     fundamental_data_str :=
       fundamental_text "189.5" "2900000000000" "29.4" "26.1" "0.0052" "1.4725";
     income_stmt := quarterly;
     quarterly_income_stmt := quarterly;
     balance_sheet := quarterly;
     quarterly_balance_sheet := quarterly;
     cashflow := quarterly;
     quarterly_cashflow := quarterly |}.

(** Prices without the High column. *)
Definition prices_no_high : DataFrame :=
  {| df_index := ["2024-01-02"; "2024-01-03"];
     df_columns :=
       [ ("Open", [VFloat "187.15"; VFloat "184.22"]);
         ("Low", [VFloat "183.89"; VFloat "183.43"]);
         ("Close", [VFloat "185.64"; VFloat "184.25"]) ] |}.

Definition world_no_high : World :=
  {| yf_download := λ _ _ _, Ok prices_no_high;
     ticker_info := λ _, Ok info;
     ticker_statement := λ kind _, Ok (statements quarterly kind);
     llm_complete := λ _, Ok answer |}.

Definition prepared_no_high : Prepared :=
  {| stock_data := prices_no_high;
     technical_data := to_string open_close;
     fundamental_data_str :=
       fundamental_text "189.5" "2900000000000" "29.4" "26.1" "0.0052" "1.4725";
     income_stmt := empty_frame;
     quarterly_income_stmt := quarterly;
     balance_sheet := empty_frame;
     quarterly_balance_sheet := empty_frame;
     cashflow := empty_frame;
     quarterly_cashflow := empty_frame |}.

(** A revenue line with no figure in any period. *)
Definition quarterly_all_missing : DataFrame :=
  {| df_index := ["Total Revenue"];
     df_columns := [ ("2024-03-31", [NaN]); ("2023-12-31", [VNone]) ] |}.

(** The metadata with one more provider field. *)
Definition info_with_sector : gmap string pyval :=
  <["sector" := VStr "Technology"]> info.

(** The complete record with one more entry. *)
Definition record_with_note : gmap string pyval :=
  <["Note" := VStr "unaudited"]> record.

(** A record without dividend yield and without ROE. *)
Definition record_without_yields : gmap string pyval :=
  delete "Return on Equity (ROE)" (delete "Dividend Yield (Hasil Dividen)" record).

(** The provider answers with a quarterly income statement that has no
    revenue line, the completion endpoint rejects the key. *)
Definition llm_down_no_revenue : World :=
  {| yf_download := λ _ _ _, Ok prices;
     ticker_info := λ _, Ok info;
     ticker_statement := λ kind _, Ok (statements quarterly_no_revenue kind);
     llm_complete := λ _, Raise (ExternalError "401 invalid api key") |}.

(** A quarterly income statement as the provider delivers it: revenue is
    not reported for two of the four quarters (NaN in one, None in the
    other), and the revenue line is not the first one. *)
Definition quarterly_reported : DataFrame :=
  {| df_index := ["Net Income"; "Total Revenue"];
     df_columns :=
       [ ("2024-03-31", [VFloat "23636000000.0"; VFloat "90753000000.0"]);
         ("2023-12-31", [VFloat "33916000000.0"; NaN]);
         ("2023-09-30", [VFloat "22956000000.0"; VFloat "89498000000.0"]);
         ("2023-06-30", [NaN; VNone]) ] |}.

(** The metadata request fails after the download went through. *)
Definition info_down : World :=
  {| yf_download := λ _ _ _, Ok prices;
     ticker_info := λ _, Raise (ExternalError "connection reset");
     ticker_statement := λ kind _, Ok (statements quarterly kind);
     llm_complete := λ _, Ok answer |}.

(** The balance sheet request fails, everything before it went through. *)
Definition balance_sheet_down : World :=
  {| yf_download := λ _ _ _, Ok prices;
     ticker_info := λ _, Ok info;
     ticker_statement := λ kind _,
       match kind with
       | BalanceSheet => Raise (ExternalError "read timed out")
       | _ => Ok (statements quarterly kind)
       end;
     llm_complete := λ _, Ok answer |}.

End Demo.

(** * Properties *)

(** ** Strings *)

Lemma string_app_assoc (a b c : string) : (a +:+ b) +:+ c = a +:+ b +:+ c.
Proof.
  induction a as [|ch a IH]; [done |].
  change (String ch ((a +:+ b) +:+ c) = String ch (a +:+ b +:+ c)).
  by rewrite IH.
Qed.

Lemma string_app_length (a b : string) :
  String.length (a +:+ b) = String.length a + String.length b.
Proof.
  induction a as [|ch a IH]; [done |].
  change (S (String.length (a +:+ b)) = S (String.length a + String.length b)).
  by rewrite IH.
Qed.

(** ** The extractor and the formatter *)

Lemma extract_slot (details : gmap string pyval) (field : string) (place : slot) :
  (field, place) ∈ tracked_fields →
  slot_get (extract_specific_fundamental_data details) place
    = Some (dict_get details field (VStr "N/A")).
Proof.
  unfold tracked_fields. intros Hin.
  repeat (apply elem_of_cons in Hin as [Hin | Hin];
          [injection Hin as -> ->; reflexivity |]).
  by apply elem_of_nil in Hin.
Qed.

Lemma dict_get_absent (d : gmap string pyval) key dflt :
  d !! key = None → dict_get d key dflt = dflt.
Proof. unfold dict_get. by intros ->. Qed.

Lemma dict_get_present (d : gmap string pyval) key dflt v :
  d !! key = Some v → dict_get d key dflt = v.
Proof. unfold dict_get. by intros ->. Qed.

(** C1. For every metadata mapping the extractor returns a dict with
    exactly the five top-level keys, the P/E entry being a dict of the two
    P/E keys; each tracked provider field that is absent from the mapping
    shows as the string "N/A" at its place, and each one that is present
    shows as the very value the mapping holds. *)
Theorem extract_shape_and_fields (details : gmap string pyval) :
  dom (extract_specific_fundamental_data details) = top_level_keys ∧
  size (extract_specific_fundamental_data details) = 5 ∧
  (∃ pe : gmap string pyval,
      extract_specific_fundamental_data details
        !! "Price to Earnings Ratio (P/E Ratio)" = Some (VDict pe) ∧
      dom pe = {[ "Trailing P/E"; "Forward P/E" ]}) ∧
  ∀ field place, (field, place) ∈ tracked_fields →
    (details !! field = None →
       slot_get (extract_specific_fundamental_data details) place = Some (VStr "N/A")) ∧
    (∀ v, details !! field = Some v →
       slot_get (extract_specific_fundamental_data details) place = Some v).
Proof.
  split; [reflexivity |]. split; [reflexivity |]. split.
  - eexists. split; reflexivity.
  - intros field place Hin. rewrite (extract_slot _ _ _ Hin). split.
    + intros Habs. by rewrite dict_get_absent.
    + intros v Hv. by rewrite (dict_get_present _ _ _ _ Hv).
Qed.

Section FormatterFacts.

Variable container_repr : pyval -> string.

(** The formatter succeeds exactly on the dicts that hold the keys it
    subscripts. *)
Lemma format_ok_iff (sd : gmap string pyval) :
  is_ok (format_specific_fundamental_data container_repr sd) = true ↔ meets_format_keys sd.
Proof.
  unfold format_specific_fundamental_data, meets_format_keys,
    dict_getitem, getitem, dict_getitem.
  split.
  - intros H.
    destruct (sd !! "Current Price (Harga Saham Saat Ini)") as [cp|]; [|done].
    destruct (sd !! "Market Cap (Kapitalisasi Pasar)") as [mc|]; [|done].
    destruct (sd !! "Price to Earnings Ratio (P/E Ratio)") as [pe|]; [|done].
    simpl in H. destruct pe as [| | | | | |pe]; try done.
    unfold dict_getitem in H.
    destruct (pe !! "Trailing P/E") as [tpe|] eqn:Ht; [|done].
    simpl in H. unfold dict_getitem in H.
    destruct (pe !! "Forward P/E") as [fpe|] eqn:Hf; [|done].
    destruct (sd !! "Dividend Yield (Hasil Dividen)") as [dy|]; [|done].
    destruct (sd !! "Return on Equity (ROE)") as [roe|]; [|done].
    repeat split; eauto.
  - intros ([cp ->] & [mc ->] & (pe & -> & [tpe Ht] & [fpe Hf]) & [dy ->] & [roe ->]).
    simpl. unfold dict_getitem. rewrite Ht. simpl. unfold dict_getitem.
    by rewrite Hf.
Qed.

Lemma format_empty_raises :
  format_specific_fundamental_data container_repr ∅
    = Raise (KeyError "Current Price (Harga Saham Saat Ini)").
Proof. reflexivity. Qed.

Lemma format_extract (details : gmap string pyval) :
  format_specific_fundamental_data container_repr (extract_specific_fundamental_data details)
    = Ok (fundamental_text
            (py_str container_repr (dict_get details "currentPrice" (VStr "N/A")))
            (py_str container_repr (dict_get details "marketCap" (VStr "N/A")))
            (py_str container_repr (dict_get details "trailingPE" (VStr "N/A")))
            (py_str container_repr (dict_get details "forwardPE" (VStr "N/A")))
            (py_str container_repr (dict_get details "dividendYield" (VStr "N/A")))
            (py_str container_repr (dict_get details "returnOnEquity" (VStr "N/A")))).
Proof. reflexivity. Qed.

(** Cut the text after a given prefix to find the next piece. *)
Local Ltac after_prefix s := exists s; eexists; split; [reflexivity | cbn [in_order]].

(** C2. For every dict holding the five keys, the P/E entry being a dict of
    the two P/E keys, the formatter returns one text: the five labels, each
    followed by what Python prints for the value stored under it, in the
    order current price, market cap, trailing P/E, forward P/E, dividend
    yield, ROE; the percent sign directly follows the printed dividend-yield
    and ROE values, which are the stored values themselves. *)
Theorem format_complete_record (sd pe : gmap string pyval)
    (cp mc tpe fpe dy roe : pyval) :
  sd !! "Current Price (Harga Saham Saat Ini)" = Some cp →
  sd !! "Market Cap (Kapitalisasi Pasar)" = Some mc →
  sd !! "Price to Earnings Ratio (P/E Ratio)" = Some (VDict pe) →
  pe !! "Trailing P/E" = Some tpe →
  pe !! "Forward P/E" = Some fpe →
  sd !! "Dividend Yield (Hasil Dividen)" = Some dy →
  sd !! "Return on Equity (ROE)" = Some roe →
  ∃ text,
    format_specific_fundamental_data container_repr sd = Ok text ∧
    text =
      "**Current Price (Harga Saham Saat Ini)**: " +:+ py_str container_repr cp +:+ " IDR" +:+ LF +:+ LF +:+
      "**Market Cap (Kapitalisasi Pasar)**: " +:+ py_str container_repr mc +:+ " IDR" +:+ LF +:+ LF +:+
      "**Price to Earnings Ratio (P/E Ratio)**:" +:+ LF +:+
      "  - Trailing P/E: " +:+ py_str container_repr tpe +:+ LF +:+
      "  - Forward P/E: " +:+ py_str container_repr fpe +:+ LF +:+ LF +:+
      "**Dividend Yield (Hasil Dividen)**: " +:+ py_str container_repr dy +:+ "%" +:+ LF +:+ LF +:+
      "**Return on Equity (ROE)**: " +:+ py_str container_repr roe +:+ "%" ∧
    in_order
      [ "**Current Price (Harga Saham Saat Ini)**: "; py_str container_repr cp;
        "**Market Cap (Kapitalisasi Pasar)**: "; py_str container_repr mc;
        "**Price to Earnings Ratio (P/E Ratio)**:";
        "Trailing P/E: "; py_str container_repr tpe;
        "Forward P/E: "; py_str container_repr fpe;
        "**Dividend Yield (Hasil Dividen)**: "; py_str container_repr dy +:+ "%";
        "**Return on Equity (ROE)**: "; py_str container_repr roe +:+ "%" ] text.
Proof.
  intros Hcp Hmc Hpe Htpe Hfpe Hdy Hroe. eexists. split; [| split; [reflexivity |]].
  - unfold format_specific_fundamental_data, dict_getitem.
    rewrite Hcp, Hmc, Hpe. simpl. unfold dict_getitem.
    rewrite Htpe. simpl. unfold dict_getitem. rewrite Hfpe, Hdy, Hroe.
    reflexivity.
  - cbn [in_order].
    after_prefix "". after_prefix "".
    after_prefix (" IDR" +:+ LF +:+ LF). after_prefix "".
    after_prefix (" IDR" +:+ LF +:+ LF).
    after_prefix (LF +:+ "  - "). after_prefix "".
    after_prefix (LF +:+ "  - "). after_prefix "".
    after_prefix (LF +:+ LF).
    exists "", (LF +:+ LF +:+ "**Return on Equity (ROE)**: " +:+ py_str container_repr roe +:+ "%").
    split; [by rewrite string_app_assoc |]. cbn [in_order].
    after_prefix (LF +:+ LF).
    exists "", "". split; [by rewrite string_app_assoc |]. done.
Qed.

(** C9. The extractor yields a dict for every mapping (each lookup has a
    default), that dict holds every key the formatter subscripts, and so
    formatting the extractor's result succeeds for every mapping. *)
Theorem format_after_extract_succeeds (details : gmap string pyval) :
  meets_format_keys (extract_specific_fundamental_data details) ∧
  is_ok (format_specific_fundamental_data container_repr
           (extract_specific_fundamental_data details)) = true ∧
  ∃ text,
    format_specific_fundamental_data container_repr (extract_specific_fundamental_data details)
      = Ok text.
Proof.
  assert (Hok : is_ok (format_specific_fundamental_data container_repr
                         (extract_specific_fundamental_data details)) = true)
    by (by rewrite format_extract).
  split; [by apply format_ok_iff |]. split; [done |].
  rewrite format_extract. eauto.
Qed.

(** C10. A tracked field that is present with the value None is not
    replaced by "N/A": the record holds None at its place, and the formatter
    prints it as the text None. *)
Theorem null_field_passes_through (details : gmap string pyval)
    (field : string) (place : slot) :
  (field, place) ∈ tracked_fields →
  details !! field = Some VNone →
  slot_get (extract_specific_fundamental_data details) place = Some VNone ∧
  slot_get (extract_specific_fundamental_data details) place ≠ Some (VStr "N/A") ∧
  py_str container_repr (dict_get details field (VStr "N/A")) = "None" ∧
  format_specific_fundamental_data container_repr (extract_specific_fundamental_data details)
    = Ok (fundamental_text
            (py_str container_repr (dict_get details "currentPrice" (VStr "N/A")))
            (py_str container_repr (dict_get details "marketCap" (VStr "N/A")))
            (py_str container_repr (dict_get details "trailingPE" (VStr "N/A")))
            (py_str container_repr (dict_get details "forwardPE" (VStr "N/A")))
            (py_str container_repr (dict_get details "dividendYield" (VStr "N/A")))
            (py_str container_repr (dict_get details "returnOnEquity" (VStr "N/A")))).
Proof.
  intros Hin Hnull. rewrite (extract_slot _ _ _ Hin).
  rewrite (dict_get_present _ _ _ _ Hnull).
  repeat split; done.
Qed.

End FormatterFacts.

(** ** The script monad *)

Lemma bind_request {A B} (ev : event) (o : outcome A) (f : A → M B) :
  request ev o ≫= f =
  match o with
  | Ok a => MkM (ev :: trace (f a)) (result (f a))
  | Raise e => MkM [ev] (Raise e)
  end.
Proof. destruct o as [a|e]; [|done]. unfold request, mbind, M_bind. by destruct (f a). Qed.

Lemma bind_eval {A B} (o : outcome A) (f : A → M B) :
  eval o ≫= f =
  match o with
  | Ok a => f a
  | Raise e => MkM [] (Raise e)
  end.
Proof. destruct o as [a|e]; [|done]. unfold eval, mbind, M_bind. by destruct (f a). Qed.

Lemma bind_render {B} (c : container) (el : element) (f : unit → M B) :
  render c el ≫= f = MkM (Render c el :: trace (f ())) (result (f ())).
Proof. unfold render, mbind, M_bind. by destruct (f ()). Qed.

Lemma bind_ok {A B} (m : M A) (f : A → M B) (a : A) :
  result m = Ok a → m ≫= f = MkM (trace m ++ trace (f a)) (result (f a)).
Proof. destruct m as [tr r]. simpl. intros ->. unfold mbind, M_bind. by destruct (f a). Qed.

Lemma bind_raise {A B} (m : M A) (f : A → M B) (e : exn) :
  result m = Raise e → m ≫= f = MkM (trace m) (Raise e).
Proof. destruct m as [tr r]. simpl. by intros ->. Qed.

Lemma M_eta {A} (m : M A) : MkM (trace m) (result m) = m.
Proof. by destruct m. Qed.

Lemma prompt_format_template (t f : string) :
  PromptTemplate_format {| pt_template := template |}
    [("technical_data", t); ("fundamental_data", f)] = Ok (prompt_text t f).
Proof. reflexivity. Qed.

Lemma analyze_stock_data_spec (w : World) (t f : string) :
  analyze_stock_data w t f
    = MkM [Complete (prompt_text t f)] (llm_complete w (prompt_text t f)).
Proof.
  unfold analyze_stock_data. rewrite prompt_format_template, bind_eval, bind_request.
  by destruct (llm_complete w (prompt_text t f)).
Qed.

Lemma left_col_spec (w : World) (inp : Inputs) (p : Prepared) :
  left_col w inp p =
  match llm_complete w (prompt_of p) with
  | Ok r => MkM [analysis_header inp; Complete (prompt_of p); analysis_body r] (Ok ())
  | Raise e => MkM [analysis_header inp; Complete (prompt_of p)] (Raise e)
  end.
Proof.
  unfold left_col. rewrite bind_render, analyze_stock_data_spec.
  fold (prompt_of p). unfold mbind at 1, M_bind at 1.
  by destruct (llm_complete w (prompt_of p)).
Qed.

Lemma right_col_spec (inp : Inputs) (p : Prepared) :
  right_col inp p =
  match candlestick_figure inp p with
  | Ok fig => MkM [graph_header; Render RightCol (PlotlyChart fig)] (Ok ())
  | Raise e => MkM [graph_header] (Raise e)
  end.
Proof.
  unfold right_col, candlestick_figure. rewrite bind_render.
  repeat (rewrite bind_eval; destruct (df_getitem _ _); [|done]).
  done.
Qed.

Lemma tab2_spec (p : Prepared) : tab2 p = MkM (tab2_events p) (Ok ()).
Proof. reflexivity. Qed.

Lemma in_index_loc (label : string) (df : DataFrame) :
  in_index label df = true ↔ ∃ row, df_loc df label = Ok row.
Proof.
  unfold in_index, df_loc. split.
  - intros Hin%bool_decide_eq_true.
    destruct (list_find _ _) as [[i l]|] eqn:Hfind; [eauto |].
    apply list_find_None in Hfind. rewrite Forall_forall in Hfind.
    by destruct (Hfind label Hin).
  - intros [row Hrow]. apply bool_decide_eq_true.
    destruct (list_find _ _) as [[i l]|] eqn:Hfind; [|done].
    apply list_find_Some in Hfind as (Hl & -> & _).
    apply list_elem_of_lookup. eauto.
Qed.

Lemma tab3_spec (inp : Inputs) (q : DataFrame) :
  tab3 inp q =
  match df_loc q "Total Revenue" with
  | Ok row =>
      MkM [revenue_header;
           Render Tab3 (PlotlyChart (revenue_figure (symbol inp) (dropna row)))] (Ok ())
  | Raise _ => MkM [revenue_header; revenue_notice] (Ok ())
  end.
Proof.
  unfold tab3. rewrite bind_render.
  destruct (in_index "Total Revenue" q) eqn:Hin.
  - apply in_index_loc in Hin as [row Hrow]. unfold total_revenue. by rewrite Hrow.
  - destruct (df_loc q "Total Revenue") as [row|] eqn:Hrow; [|done].
    assert (in_index "Total Revenue" q = true) by (apply in_index_loc; eauto).
    congruence.
Qed.

(** Case analysis on the next outcome the goal branches on. *)
Ltac split_outcome :=
  match goal with
  | |- context [match ?o with Ok _ => _ | Raise _ => _ end] =>
      let H := fresh "Hstep" in destruct o eqn:H
  end.

Lemma select_columns_names (df : DataFrame) (names : list string) cols :
  select_columns df names = Ok cols → cols.*1 = names.
Proof.
  revert cols. induction names as [|n names IH]; intros cols; simpl.
  - by intros [= <-].
  - destruct (df_column df n) as [col|]; [|done]. simpl.
    destruct (select_columns df names) as [cols'|]; [|done]. simpl.
    intros [= <-]. simpl. f_equal. by apply IH.
Qed.

Lemma df_select_names (df : DataFrame) (names : list string) (sel : DataFrame) :
  df_select df names = Ok sel →
  (df_columns sel).*1 = names ∧ df_index sel = df_index df.
Proof.
  unfold df_select. destruct (select_columns df names) as [cols|] eqn:Hsel; [|done].
  simpl. intros [= <-]. simpl. split; [by eapply select_columns_names | done].
Qed.

Lemma occurs_in_prompt_technical (t f : string) : occurs_in t (prompt_text t f).
Proof. by exists prompt_head, (prompt_middle +:+ f +:+ prompt_tail). Qed.

Lemma occurs_in_prompt_fundamental (t f : string) : occurs_in f (prompt_text t f).
Proof.
  exists (prompt_head +:+ t +:+ prompt_middle), prompt_tail.
  unfold prompt_text. by rewrite !string_app_assoc.
Qed.

Lemma prompt_text_length (t f : string) :
  String.length (prompt_text t f)
    = String.length (prompt_text "" "") + String.length t + String.length f.
Proof.
  unfold prompt_text. rewrite !string_app_length.
  change (String.length "") with 0. lia.
Qed.

Lemma prompts_app (tr1 tr2 : list event) : prompts (tr1 ++ tr2) = prompts tr1 ++ prompts tr2.
Proof. unfold prompts. apply omap_app. Qed.

Lemma completions_app (tr1 tr2 : list event) :
  completions (tr1 ++ tr2) = completions tr1 + completions tr2.
Proof. unfold completions. by rewrite List.filter_app, length_app. Qed.

Lemma rendered_in_app c (tr1 tr2 : list event) :
  rendered_in c (tr1 ++ tr2) = rendered_in c tr1 ++ rendered_in c tr2.
Proof. unfold rendered_in. apply omap_app. Qed.

Section ScriptFacts.
Variable container_repr : pyval -> string.
Variable to_string : DataFrame -> string.

Lemma spinner_block_ok (w : World) (inp : Inputs) (p : Prepared) :
  result (spinner_block container_repr to_string w inp) = Ok p →
  ∃ info open_close,
    yf_download w (symbol inp) (start_date inp) (end_date inp) = Ok (stock_data p) ∧
    ticker_info w (symbol inp) = Ok info ∧
    df_select (stock_data p) ["Open"; "Close"] = Ok open_close ∧
    technical_data p = to_string open_close ∧
    format_specific_fundamental_data container_repr
      (extract_specific_fundamental_data info) = Ok (fundamental_data_str p) ∧
    ticker_statement w IncomeStmt (symbol inp) = Ok (income_stmt p) ∧
    ticker_statement w QuarterlyIncomeStmt (symbol inp) = Ok (quarterly_income_stmt p) ∧
    ticker_statement w BalanceSheet (symbol inp) = Ok (balance_sheet p) ∧
    ticker_statement w QuarterlyBalanceSheet (symbol inp) = Ok (quarterly_balance_sheet p) ∧
    ticker_statement w Cashflow (symbol inp) = Ok (cashflow p) ∧
    ticker_statement w QuarterlyCashflow (symbol inp) = Ok (quarterly_cashflow p) ∧
    trace (spinner_block container_repr to_string w inp) = fetched_trace inp.
Proof.
  unfold spinner_block, with_spinner, fetch_statement. cbn [result trace].
  rewrite bind_request. split_outcome; [|done]. cbn [result trace].
  rewrite bind_request. split_outcome; [|done]. cbn [result trace].
  rewrite bind_eval. split_outcome; [|done].
  rewrite format_extract, bind_eval.
  do 6 (rewrite bind_request; split_outcome; [|done]; cbn [result trace]).
  rewrite bind_render. cbn [result trace mret M_ret].
  intros [= <-]. cbn. eauto 20.
Qed.

(** The spinner block succeeds exactly when every fetch and the column
    selection do. *)
Lemma spinner_block_ok_iff (w : World) (inp : Inputs) :
  is_ok (result (spinner_block container_repr to_string w inp)) = true ↔
  ∃ df info,
    yf_download w (symbol inp) (start_date inp) (end_date inp) = Ok df ∧
    ticker_info w (symbol inp) = Ok info ∧
    is_ok (df_select df ["Open"; "Close"]) = true ∧
    ∀ kind, is_ok (ticker_statement w kind (symbol inp)) = true.
Proof.
  split.
  - destruct (result _) as [p|] eqn:Hp; [|done]. intros _.
    apply spinner_block_ok in Hp
      as (info & oc & Hdl & Hinfo & Hsel & _ & _ & H1 & H2 & H3 & H4 & H5 & H6 & _).
    exists (stock_data p), info. rewrite Hsel. repeat split; try done.
    intros []; by rewrite ?H1, ?H2, ?H3, ?H4, ?H5, ?H6.
  - intros (df & info & Hdl & Hinfo & Hsel & Hst).
    unfold spinner_block, with_spinner, fetch_statement. cbn [result trace].
    rewrite bind_request, Hdl. cbn [result trace].
    rewrite bind_request, Hinfo. cbn [result trace].
    rewrite bind_eval. destruct (df_select df _); [|done].
    rewrite format_extract, bind_eval.
    pose proof (Hst IncomeStmt). pose proof (Hst QuarterlyIncomeStmt).
    pose proof (Hst BalanceSheet). pose proof (Hst QuarterlyBalanceSheet).
    pose proof (Hst Cashflow). pose proof (Hst QuarterlyCashflow).
    do 6 (rewrite bind_request; split_outcome; [|done]; cbn [result trace]).
    by rewrite bind_render.
Qed.

Lemma spinner_block_raise (w : World) (inp : Inputs) (e : exn) :
  result (spinner_block container_repr to_string w inp) = Raise e →
  (yf_download w (symbol inp) (start_date inp) (end_date inp) = Raise e ∨
   ticker_info w (symbol inp) = Raise e ∨
   (∃ df, yf_download w (symbol inp) (start_date inp) (end_date inp) = Ok df ∧
          df_select df ["Open"; "Close"] = Raise e) ∨
   (∃ kind, ticker_statement w kind (symbol inp) = Raise e)) ∧
  (∀ c, rendered_in c (trace (spinner_block container_repr to_string w inp)) = []) ∧
  prompts (trace (spinner_block container_repr to_string w inp)) = [] ∧
  last (trace (spinner_block container_repr to_string w inp)) = Some SpinnerStop.
Proof.
  unfold spinner_block, with_spinner, fetch_statement. cbn [result trace].
  rewrite bind_request. split_outcome; cbn [result trace];
    [| intros [= <-]; cbn; split; [eauto | done]].
  rewrite bind_request. split_outcome; cbn [result trace];
    [| intros [= <-]; cbn; split; [eauto | done]].
  rewrite bind_eval. split_outcome; cbn [result trace];
    [| intros [= <-]; cbn; split; [eauto 6 | done]].
  rewrite format_extract, bind_eval.
  do 6 (rewrite bind_request; split_outcome; cbn [result trace];
    [| intros [= <-]; cbn; split; [eauto 8 | done]]).
  rewrite bind_render. cbn [result trace mret M_ret]. done.
Qed.

(** The run once the spinner block is through. *)
Lemma on_analyze_fetched (w : World) (inp : Inputs) (p : Prepared) :
  result (spinner_block container_repr to_string w inp) = Ok p →
  on_analyze container_repr to_string w inp =
  match llm_complete w (prompt_of p) with
  | Raise e =>
      MkM (fetched_trace inp ++ [analysis_header inp; Complete (prompt_of p)]) (Raise e)
  | Ok r =>
      match candlestick_figure inp p with
      | Raise e =>
          MkM (fetched_trace inp ++
               [analysis_header inp; Complete (prompt_of p); analysis_body r;
                graph_header]) (Raise e)
      | Ok fig =>
          MkM (fetched_trace inp ++
               [analysis_header inp; Complete (prompt_of p); analysis_body r;
                graph_header; Render RightCol (PlotlyChart fig)] ++
               tab2_events p ++ trace (tab3 inp (quarterly_income_stmt p)))
              (Ok ())
      end
  end.
Proof.
  intros Hp. unfold on_analyze. rewrite (bind_ok _ _ _ Hp).
  apply spinner_block_ok in Hp as (_ & _ & _ & _ & _ & _ & _ & _ & _ & _ & _ & _ & _ & ->).
  rewrite left_col_spec.
  destruct (llm_complete w (prompt_of p)) as [r|e]; [|done].
  rewrite right_col_spec.
  destruct (candlestick_figure inp p) as [fig|e]; [|done].
  rewrite tab2_spec, tab3_spec.
  by destruct (df_loc _ _).
Qed.

Lemma on_analyze_not_fetched (w : World) (inp : Inputs) (e : exn) :
  result (spinner_block container_repr to_string w inp) = Raise e →
  on_analyze container_repr to_string w inp =
  MkM (trace (spinner_block container_repr to_string w inp)) (Raise e).
Proof. intros He. unfold on_analyze. by rewrite (bind_raise _ _ _ He). Qed.

Lemma prompts_on_analyze (w : World) (inp : Inputs) :
  prompts (trace (on_analyze container_repr to_string w inp)) =
  match result (spinner_block container_repr to_string w inp) with
  | Ok p => [prompt_of p]
  | Raise _ => []
  end.
Proof.
  destruct (result (spinner_block container_repr to_string w inp)) as [p|e] eqn:Hp.
  - rewrite (on_analyze_fetched _ _ _ Hp).
    destruct (llm_complete w (prompt_of p)) as [r|e]; [|reflexivity].
    destruct (candlestick_figure inp p) as [fig|e]; [|reflexivity].
    cbn [trace]. rewrite !prompts_app, tab3_spec.
    by destruct (df_loc _ _).
  - rewrite (on_analyze_not_fetched _ _ _ Hp). cbn [trace].
    by apply spinner_block_raise in Hp as (_ & _ & -> & _).
Qed.

Lemma completions_prompts (tr : list event) : completions tr = length (prompts tr).
Proof.
  unfold completions, prompts. induction tr as [|ev tr IH]; [done |].
  destruct ev; simpl; by rewrite ?IH.
Qed.

Lemma assoc_first {A} (key : string) (l : list (string * A)) (v : A) :
  assoc key l = Some v →
  ∃ before after, l = before ++ (key, v) :: after ∧ key ∉ before.*1.
Proof.
  induction l as [|[k a] l IH]; [done |]. simpl.
  destruct (decide (k = key)) as [->|Hne].
  - intros [= ->]. exists [], l. split; [done | apply not_elem_of_nil].
  - intros (before & after & -> & Hfresh)%IH.
    exists ((k, a) :: before), after. split; [done |].
    simpl. rewrite not_elem_of_cons. split; [congruence | done].
Qed.

Lemma df_select_pair (df sel : DataFrame) (a b : string) :
  df_select df [a; b] = Ok sel →
  ∃ ca cb,
    assoc a (df_columns df) = Some ca ∧ assoc b (df_columns df) = Some cb ∧
    sel = {| df_index := df_index df; df_columns := [(a, ca); (b, cb)] |}.
Proof.
  unfold df_select, select_columns, df_column.
  destruct (assoc a _) as [ca|]; [|done].
  destruct (assoc b _) as [cb|]; [|done].
  intros [= <-]. eauto.
Qed.

(** C3. Whatever the two text blocks are, the prompt submitted to the model
    is the fixed template with the technical block and the fundamental block
    put in as they are: both occur in it character for character, and its
    length is the template's plus theirs (nothing is escaped, dropped or cut).
    In a run whose fetches succeed, the technical block is pandas' rendering
    of the frame that has the row labels of the downloaded price frame and
    two columns, Open and Close in this order, each with the cells of the
    price frame's (first) column of that name; the fundamental block is the
    formatted extract of the metadata, and the one prompt submitted holds
    both. *)
Theorem prompt_holds_both_blocks (w : World) (inp : Inputs) (p : Prepared) :
  result (spinner_block container_repr to_string w inp) = Ok p →
  (∀ t f : string,
      trace (analyze_stock_data w t f) = [Complete (prompt_text t f)] ∧
      occurs_in t (prompt_text t f) ∧
      occurs_in f (prompt_text t f) ∧
      String.length (prompt_text t f)
        = String.length (prompt_text "" "") + String.length t + String.length f) ∧
  ∃ (open_close : DataFrame) (info : gmap string pyval) (fundamental : string),
    yf_download w (symbol inp) (start_date inp) (end_date inp) = Ok (stock_data p) ∧
    df_select (stock_data p) ["Open"; "Close"] = Ok open_close ∧
    (df_columns open_close).*1 = ["Open"; "Close"] ∧
    ticker_info w (symbol inp) = Ok info ∧
    format_specific_fundamental_data container_repr
      (extract_specific_fundamental_data info) = Ok fundamental ∧
    prompts (trace (on_analyze container_repr to_string w inp))
      = [prompt_text (to_string open_close) fundamental] ∧
    occurs_in (to_string open_close) (prompt_text (to_string open_close) fundamental) ∧
    occurs_in fundamental (prompt_text (to_string open_close) fundamental) ∧
    technical_data p = to_string open_close ∧
    fundamental_data_str p = fundamental ∧
    ∃ (opens closes : list pyval)
      (before_open after_open before_close after_close : list (string * list pyval)),
      df_columns (stock_data p) = before_open ++ ("Open", opens) :: after_open ∧
      ("Open" ∉ before_open.*1) ∧
      df_columns (stock_data p) = before_close ++ ("Close", closes) :: after_close ∧
      ("Close" ∉ before_close.*1) ∧
      open_close = {| df_index := df_index (stock_data p);
                      df_columns := [("Open", opens); ("Close", closes)] |} ∧
      prompts (trace (on_analyze container_repr to_string w inp))
        = [ prompt_head +:+
            to_string {| df_index := df_index (stock_data p);
                         df_columns := [("Open", opens); ("Close", closes)] |} +:+
            prompt_middle +:+ fundamental +:+ prompt_tail ].
Proof.
  intros Hp. split.
  - intros t f. rewrite analyze_stock_data_spec.
    auto using occurs_in_prompt_technical, occurs_in_prompt_fundamental,
      prompt_text_length.
  - pose proof (prompts_on_analyze w inp) as Hprompts. rewrite Hp in Hprompts.
    apply spinner_block_ok in Hp
      as (info & oc & Hdl & Hinfo & Hsel & Htech & Hfmt & _).
    exists oc, info, (fundamental_data_str p).
    destruct (df_select_names _ _ _ Hsel) as [Hnames _].
    unfold prompt_of in Hprompts. rewrite Htech in Hprompts.
    do 10 (split; [by auto using occurs_in_prompt_technical,
                     occurs_in_prompt_fundamental |]).
    apply df_select_pair in Hsel as (opens & closes & Hopen & Hclose & ->).
    apply assoc_first in Hopen as (bo & ao & Ho & Hfo).
    apply assoc_first in Hclose as (bc & ac & Hc & Hfc).
    exists opens, closes, bo, ao, bc, ac. done.
Qed.

(** C7. What analyze_stock_data returns is what the completion call
    returned for the formatted prompt, be it a response object or an
    exception: nothing parses, checks or changes it on the way. *)
Theorem analyze_returns_response_unmodified (w : World) (t f : string) :
  result (analyze_stock_data w t f) = llm_complete w (prompt_text t f) ∧
  trace (analyze_stock_data w t f) = [Complete (prompt_text t f)].
Proof. by rewrite analyze_stock_data_spec. Qed.


Lemma dropna_count (row : Series) :
  length (dropna row) + length (filter (λ e : string * pyval, isna e.2 = true) row)
    = length row.
Proof.
  unfold dropna. induction row as [|[period v] row IH]; [done |].
  rewrite !filter_cons. simpl. destruct (isna v) eqn:Hv.
  - rewrite decide_False by done. rewrite decide_True by done. simpl. lia.
  - rewrite decide_True by done. rewrite decide_False by done. simpl. lia.
Qed.

Lemma df_loc_index (q : DataFrame) (label : string) (row : Series) :
  df_loc q label = Ok row → series_index row = (df_columns q).*1.
Proof.
  unfold df_loc, series_index. destruct (list_find _ _) as [[i l]|]; [|done].
  intros [= <-]. rewrite <- list_fmap_compose. by apply list_fmap_ext.
Qed.

Lemma dropna_figure_series (figures : list (string * option string)) :
  dropna (figure_series figures)
    = figure_series (filter (λ e : string * option string, reported e.2) figures).
Proof.
  unfold dropna, figure_series, reported.
  induction figures as [|[period [r|]] figures IH]; [done | |];
    rewrite fmap_cons, !filter_cons; cbn [snd isna from_option].
  - destruct (decide (r = "nan")) as [->|Hr].
    + rewrite decide_False by (by rewrite bool_decide_eq_true_2).
      by rewrite decide_False by (by intros [_ H]).
    + rewrite decide_True by (by rewrite bool_decide_eq_false_2).
      rewrite decide_True by (split; congruence).
      rewrite fmap_cons. by rewrite IH.
  - rewrite decide_False by done. by rewrite decide_False by (by intros [H _]).
Qed.

(** The row at position [i] of columns of figures that all reach that far. *)
Lemma figure_cells_row (cols : list (string * list pyval)) (n i : nat) :
  Forall (λ c : string * list pyval,
            length c.2 = n ∧ Forall (λ v, is_figure v = true) c.2) cols →
  i < n →
  ∃ figures : list (string * option string),
    (λ c : string * list pyval, (c.1, default NaN (c.2 !! i))) <$> cols
      = figure_series figures ∧
    figures.*1 = cols.*1 ∧
    ∀ k period cells, cols !! k = Some (period, cells) →
      ∃ r, cells !! i = Some (from_option VFloat VNone r) ∧
           figures !! k = Some (period, r).
Proof.
  intros Hcols Hi.
  induction Hcols as [|[period cells] cols [Hlen Hfigure] _ IH].
  - exists []. repeat split; done.
  - destruct IH as (figures & Hrow & Hnames & Hcells). simpl in Hlen, Hfigure.
    destruct (lookup_lt_is_Some_2 cells i) as [v Hv]; [lia |].
    assert (∃ r, v = from_option VFloat VNone r) as [r ->].
    { pose proof (Forall_lookup_1 _ _ _ _ Hfigure Hv) as Hfig.
      destruct v as [| | |text| | |]; try discriminate Hfig;
        [by exists None | by exists (Some text)]. }
    exists ((period, r) :: figures). split; [| split].
    + rewrite fmap_cons. cbn [fst snd]. rewrite Hv, Hrow. reflexivity.
    + by rewrite !fmap_cons, Hnames.
    + intros [|k] period' cells' Hk; simpl in Hk.
      * injection Hk as <- <-. eauto.
      * by apply Hcells.
Qed.

(** C5. On a quarterly income statement as the provider delivers it
    (distinct line items, a float or None in every cell) that has a Total
    Revenue line, the row looked up is that line: for every period, the cell
    which the period's column holds at the position of the line in the index.
    The series charted is this row without the periods whose figure is
    missing (None or NaN), the others in the statement's order with the
    figures as stored: it is a subsequence of the row, an entry is in it
    exactly when it is in the row and not missing, and as many entries are
    gone as are missing.  The third tab plots one bar trace whose x are the
    periods kept and whose y are their figures. *)
Theorem revenue_series_drops_missing (inp : Inputs) (q : DataFrame) :
  statement_frame q →
  in_index "Total Revenue" q = true →
  ∃ (row : Series) (i : nat) (figures : list (string * option string)),
    df_loc q "Total Revenue" = Ok row ∧
    series_index row = (df_columns q).*1 ∧
    total_revenue q = Ok (dropna row) ∧
    sublist (dropna row) row ∧
    (∀ period v, (period, v) ∈ dropna row ↔ (period, v) ∈ row ∧ isna v = false) ∧
    length (dropna row) + length (filter (λ e : string * pyval, isna e.2 = true) row)
      = length row ∧
    tab3 inp q
      = MkM [revenue_header;
             Render Tab3 (PlotlyChart (revenue_figure (symbol inp) (dropna row)))]
            (Ok ()) ∧
    fig_data (revenue_figure (symbol inp) (dropna row))
      = [Bar (series_index (dropna row)) (series_values (dropna row)) "Total Revenue"] ∧
    df_index q !! i = Some "Total Revenue" ∧
    (∀ j, df_index q !! j = Some "Total Revenue" → j = i) ∧
    figures.*1 = (df_columns q).*1 ∧
    (∀ k period cells, df_columns q !! k = Some (period, cells) →
       ∃ r, cells !! i = Some (from_option VFloat VNone r) ∧
            figures !! k = Some (period, r)) ∧
    row = (λ e : string * option string, (e.1, from_option VFloat VNone e.2))
            <$> figures ∧
    dropna row
      = (λ e : string * option string, (e.1, from_option VFloat VNone e.2))
          <$> filter (λ e : string * option string,
                        e.2 ≠ None ∧ e.2 ≠ Some "nan") figures ∧
    (∀ period v,
       (period, v) ∈ dropna row
       ↔ (period, v) ∈ row ∧ v ≠ VNone ∧ v ≠ VFloat "nan") ∧
    tab3 inp q
      = MkM [ Render Tab3 (Subheader "Total Revenue per Quarter");
              Render Tab3 (PlotlyChart
                {| fig_data :=
                     [ Bar (filter (λ e : string * option string,
                                      e.2 ≠ None ∧ e.2 ≠ Some "nan") figures).*1
                           (from_option VFloat VNone
                              <$> (filter (λ e : string * option string,
                                             e.2 ≠ None ∧ e.2 ≠ Some "nan") figures).*2)
                           "Total Revenue" ];
                   fig_title := Some (symbol inp +:+ " Total Revenue per Quarter");
                   fig_xaxis_title := Some "Quarter";
                   fig_yaxis_title := Some "Amount (IDR)" |}) ]
            (Ok ()).
Proof.
  intros [Hdistinct Hcols] Hin.
  assert (∃ i, df_index q !! i = Some "Total Revenue" ∧
               list_find (λ l, l = "Total Revenue") (df_index q)
                 = Some (i, "Total Revenue")) as (i & Hi & Hfind).
  { apply bool_decide_eq_true in Hin.
    destruct (list_find (λ l, l = "Total Revenue") (df_index q)) as [[i l]|] eqn:Hfind.
    - pose proof Hfind as (Hl & -> & _)%list_find_Some. eauto.
    - apply list_find_None in Hfind. rewrite Forall_forall in Hfind.
      by destruct (Hfind _ Hin). }
  destruct (figure_cells_row _ _ i Hcols) as (figures & Hrow & Hnames & Hcells);
    [by eapply lookup_lt_Some |].
  assert (Hloc : df_loc q "Total Revenue" = Ok (figure_series figures)).
  { unfold df_loc. by rewrite Hfind, Hrow. }
  assert (Hkept : ∀ period v,
             (period, v) ∈ dropna (figure_series figures)
             ↔ (period, v) ∈ figure_series figures ∧ isna v = false).
  { intros period v. unfold dropna. by rewrite list_elem_of_filter, (comm and). }
  exists (figure_series figures), i, figures.
  split; [done |]. split; [by eapply df_loc_index |].
  split; [unfold total_revenue; by rewrite Hloc |].
  split; [apply sublist_filter |].
  split; [done |].
  split; [apply dropna_count |].
  split; [by rewrite tab3_spec, Hloc |].
  split; [done |].
  split; [done |].
  split; [intros j Hj; by eapply NoDup_lookup |].
  split; [done |]. split; [done |]. split; [done |].
  split; [apply dropna_figure_series |].
  split.
  { intros period v. rewrite Hkept. split.
    - intros [Hmem Hv]. split; [done |].
      split; intros ->; vm_compute in Hv; discriminate Hv.
    - intros (Hmem & Hnone & Hnan). split; [done |].
      unfold figure_series in Hmem.
      apply list_elem_of_fmap in Hmem as ([? [r|]] & [= _ ->] & _); [| done].
      simpl. apply bool_decide_eq_false_2. congruence. }
  rewrite tab3_spec, Hloc, dropna_figure_series.
  unfold revenue_figure, figure_series, series_index, series_values, reported.
  rewrite <- !list_fmap_compose. reflexivity.
Qed.

Lemma candlestick_no_bar (inp : Inputs) (p : Prepared) (fig : Figure) :
  candlestick_figure inp p = Ok fig → existsb is_bar (fig_data fig) = false.
Proof.
  unfold candlestick_figure.
  destruct (df_getitem _ "Open"); [|done].
  destruct (df_getitem _ "High"); [|done].
  destruct (df_getitem _ "Low"); [|done].
  destruct (df_getitem _ "Close"); [|done].
  by intros [= <-].
Qed.

Lemma before_tab3_spec (w : World) (inp : Inputs) (p : Prepared) :
  before_tab3 w inp p =
  match llm_complete w (prompt_of p) with
  | Raise e => MkM [analysis_header inp; Complete (prompt_of p)] (Raise e)
  | Ok r =>
      match candlestick_figure inp p with
      | Raise e =>
          MkM [analysis_header inp; Complete (prompt_of p); analysis_body r;
               graph_header] (Raise e)
      | Ok fig =>
          MkM ([analysis_header inp; Complete (prompt_of p); analysis_body r;
                graph_header; Render RightCol (PlotlyChart fig)] ++ tab2_events p)
              (Ok ())
      end
  end.
Proof.
  unfold before_tab3. rewrite left_col_spec.
  destruct (llm_complete w (prompt_of p)) as [r|e]; [|done].
  rewrite right_col_spec.
  destruct (candlestick_figure inp p) as [fig|e]; [|done].
  by rewrite tab2_spec.
Qed.

(** C4, amended.  When the fetches succeed and the quarterly income
    statement has no Total Revenue line, no event of the whole run plots a
    bar trace, and the third tab, once the run gets to it, shows its
    subheader and the notice "Row 'Total Revenue' not found in the quarterly
    income statement." and nothing else.  The run gets to the third tab
    exactly when the sections before it (the analysis column with the
    completion call, the candlestick chart, the second tab) complete: then
    the run completes, its events being the fetches, those sections' events
    as they are, then the subheader and the notice.  When one of those
    sections raises, the run ends with that exception and the third tab
    shows nothing, the notice included. *)
Theorem missing_revenue_row_fallback (w : World) (inp : Inputs) (p : Prepared) :
  result (spinner_block container_repr to_string w inp) = Ok p →
  in_index "Total Revenue" (quarterly_income_stmt p) = false →
  tab3 inp (quarterly_income_stmt p) = MkM [revenue_header; revenue_notice] (Ok ()) ∧
  Forall (λ ev, plots_bar ev = false)
    (trace (on_analyze container_repr to_string w inp)) ∧
  (result (before_tab3 w inp p) = Ok () →
     on_analyze container_repr to_string w inp
       = MkM (fetched_trace inp ++ trace (before_tab3 w inp p) ++
              [revenue_header; revenue_notice]) (Ok ()) ∧
     rendered_in Tab3 (trace (on_analyze container_repr to_string w inp))
       = [Subheader "Total Revenue per Quarter"; WriteText not_found_notice]) ∧
  tab3 inp (quarterly_income_stmt p)
    = MkM [ Render Tab3 (Subheader "Total Revenue per Quarter");
            Render Tab3
              (WriteText
                 "Row 'Total Revenue' not found in the quarterly income statement.") ]
          (Ok ()) ∧
  rendered_in Tab3 (trace (on_analyze container_repr to_string w inp))
    = (if is_ok (result (before_tab3 w inp p))
       then [ Subheader "Total Revenue per Quarter";
              WriteText
                "Row 'Total Revenue' not found in the quarterly income statement." ]
       else []) ∧
  (result (before_tab3 w inp p) = Ok () →
     on_analyze container_repr to_string w inp
       = MkM (fetched_trace inp ++ trace (before_tab3 w inp p) ++
              [ Render Tab3 (Subheader "Total Revenue per Quarter");
                Render Tab3
                  (WriteText
                     "Row 'Total Revenue' not found in the quarterly income statement.") ])
             (Ok ())) ∧
  (∀ e, result (before_tab3 w inp p) = Raise e →
     on_analyze container_repr to_string w inp
       = MkM (fetched_trace inp ++ trace (before_tab3 w inp p)) (Raise e)) ∧
  (∀ r fig, llm_complete w (prompt_of p) = Ok r →
            candlestick_figure inp p = Ok fig →
     on_analyze container_repr to_string w inp
       = MkM (fetched_trace inp ++
              [ analysis_header inp; Complete (prompt_of p); analysis_body r;
                graph_header; Render RightCol (PlotlyChart fig) ] ++
              tab2_events p ++
              [ Render Tab3 (Subheader "Total Revenue per Quarter");
                Render Tab3
                  (WriteText
                     "Row 'Total Revenue' not found in the quarterly income statement.") ])
             (Ok ())).
Proof.
  intros Hp Hrow.
  assert (Htab3 : tab3 inp (quarterly_income_stmt p)
                    = MkM [revenue_header; revenue_notice] (Ok ())).
  { rewrite tab3_spec. destruct (df_loc _ _) as [row|] eqn:Hloc; [|done].
    assert (in_index "Total Revenue" (quarterly_income_stmt p) = true)
      by (apply in_index_loc; eauto).
    congruence. }
  rewrite (on_analyze_fetched _ _ _ Hp), before_tab3_spec, Htab3.
  split; [done |].
  destruct (llm_complete w (prompt_of p)) as [r|e].
  - destruct (candlestick_figure inp p) as [fig|e] eqn:Hfig.
    + pose proof (candlestick_no_bar _ _ _ Hfig) as Hbar. cbn [trace result].
      split.
      { rewrite !Forall_app. repeat split; repeat constructor. exact Hbar. }
      split.
      { intros _. split; [by rewrite <- !app_assoc |].
        rewrite !rendered_in_app. reflexivity. }
      split; [done |].
      split; [rewrite !rendered_in_app; reflexivity |].
      split; [intros _; by rewrite <- !app_assoc |].
      split; [done |]. by intros r' fig' [= <-] [= <-].
    + cbn [trace result].
      split; [rewrite Forall_app; split; repeat constructor |].
      split; [done |]. split; [done |].
      split; [rewrite !rendered_in_app; reflexivity |].
      split; [done |]. split; [by intros e' [= ->] | done].
  - cbn [trace result].
    split; [rewrite Forall_app; split; repeat constructor |].
    split; [done |]. split; [done |].
    split; [rewrite !rendered_in_app; reflexivity |].
    split; [done |]. split; [by intros e' [= ->] | done].
Qed.


Lemma not_in_requests (ev : event) (tr : list event) :
  ev ∉ tr → ev ∉ requests tr.
Proof.
  unfold requests. intros Hnot Hin. apply Hnot.
  apply list_elem_of_In in Hin. apply List.filter_In in Hin as [Hin _].
  by apply list_elem_of_In.
Qed.

Ltac not_among := rewrite ?elem_of_cons, elem_of_nil; intuition congruence.

Ltac solve_NoDup :=
  repeat (apply NoDup_cons_2; [not_among |]); apply NoDup_nil_2.

Lemma spinner_block_requests (w : World) (inp : Inputs) :
  NoDup (requests (trace (spinner_block container_repr to_string w inp))) ∧
  ∀ prompt, Complete prompt ∉ requests (trace (spinner_block container_repr to_string w inp)).
Proof.
  unfold spinner_block, with_spinner, fetch_statement. cbn [result trace].
  rewrite bind_request. split_outcome; cbn [result trace];
    [| cbn; split; [solve_NoDup | intros; not_among]].
  rewrite bind_request. split_outcome; cbn [result trace];
    [| cbn; split; [solve_NoDup | intros; not_among]].
  rewrite bind_eval. split_outcome; cbn [result trace];
    [| cbn; split; [solve_NoDup | intros; not_among]].
  rewrite format_extract, bind_eval.
  do 6 (rewrite bind_request; split_outcome; cbn [result trace];
    [| cbn; split; [solve_NoDup | intros; not_among]]).
  rewrite bind_render. cbn.
  split; [solve_NoDup | intros; not_among].
Qed.

Lemma requests_app (tr1 tr2 : list event) :
  requests (tr1 ++ tr2) = requests tr1 ++ requests tr2.
Proof. unfold requests. apply List.filter_app. Qed.

Lemma on_analyze_requests_NoDup (w : World) (inp : Inputs) :
  NoDup (requests (trace (on_analyze container_repr to_string w inp))).
Proof.
  destruct (spinner_block_requests w inp) as [Hnodup Hfresh].
  destruct (result (spinner_block container_repr to_string w inp)) as [p|e] eqn:Hp.
  - assert (Hall : NoDup (requests (fetched_trace inp) ++ [Complete (prompt_of p)])).
    { apply spinner_block_ok in Hp as (_ & _ & _ & _ & _ & _ & _ & _ & _ & _ & _ & _ & _ & Htr).
      rewrite Htr in Hnodup, Hfresh. apply NoDup_app. split; [done |].
      split; [| apply NoDup_singleton].
      intros ev Hev ->%list_elem_of_singleton. by eapply Hfresh. }
    rewrite (on_analyze_fetched _ _ _ Hp).
    destruct (llm_complete w (prompt_of p)) as [r|e].
    + destruct (candlestick_figure inp p) as [fig|e]; cbn [trace].
      * rewrite tab3_spec.
        destruct (df_loc _ _); cbn [trace]; rewrite !requests_app;
          cbn in Hall |- *; exact Hall.
      * by rewrite requests_app.
    + cbn [trace]. by rewrite requests_app.
  - by rewrite (on_analyze_not_fetched _ _ _ Hp).
Qed.

(** C6, amended.  The prompt analyze_stock_data submits depends on the two
    text blocks alone, whatever the world answers.  A run submits exactly one
    prompt when the block under the spinner (the fetches and the preparation
    of the two texts) completes, and none when a step of that block raises;
    without the button pressed nothing is submitted.  Two runs whose spinner
    blocks complete with the same two text blocks submit the same prompt. *)
Theorem narrative_call_per_run (w : World) (inp : Inputs) :
  (∀ (w' : World) (t f : string),
      trace (analyze_stock_data w t f) = [Complete (prompt_text t f)] ∧
      trace (analyze_stock_data w' t f) = trace (analyze_stock_data w t f)) ∧
  prompts (trace (on_analyze container_repr to_string w inp)) =
    match result (spinner_block container_repr to_string w inp) with
    | Ok p => [prompt_text (technical_data p) (fundamental_data_str p)]
    | Raise _ => []
    end ∧
  completions (trace (on_analyze container_repr to_string w inp)) =
    (if is_ok (result (spinner_block container_repr to_string w inp)) then 1 else 0) ∧
  completions (trace (script container_repr to_string w inp)) =
    (if analyze_button inp && is_ok (result (spinner_block container_repr to_string w inp))
     then 1 else 0) ∧
  ∀ (w' : World) (inp' : Inputs) (p p' : Prepared),
    result (spinner_block container_repr to_string w inp) = Ok p →
    result (spinner_block container_repr to_string w' inp') = Ok p' →
    technical_data p = technical_data p' →
    fundamental_data_str p = fundamental_data_str p' →
    prompts (trace (on_analyze container_repr to_string w inp))
      = prompts (trace (on_analyze container_repr to_string w' inp')) ∧
    completions (trace (on_analyze container_repr to_string w inp)) = 1.
Proof.
  assert (Hcount : completions (trace (on_analyze container_repr to_string w inp)) =
    (if is_ok (result (spinner_block container_repr to_string w inp)) then 1 else 0)).
  { rewrite completions_prompts, prompts_on_analyze. by destruct (result _). }
  split; [intros w' t f; by rewrite !analyze_stock_data_spec |].
  split; [apply prompts_on_analyze |]. split; [done |]. split.
  - unfold script. destruct (analyze_button inp); [done | by destruct (is_ok _)].
  - intros w' inp' p p' Hp Hp' Ht Hf. rewrite Hcount, !prompts_on_analyze, Hp, Hp'.
    unfold prompt_of. by rewrite Ht, Hf.
Qed.

Lemma spinner_block_download_fails (w : World) (inp : Inputs) (e : exn) :
  yf_download w (symbol inp) (start_date inp) (end_date inp) = Raise e →
  spinner_block container_repr to_string w inp
    = MkM [ SpinnerStart "Fetching and analyzing data...";
            Download (symbol inp) (start_date inp) (end_date inp);
            SpinnerStop ] (Raise e).
Proof.
  intros Hdl. unfold spinner_block, with_spinner. by rewrite bind_request, Hdl.
Qed.

Lemma spinner_block_info_fails (w : World) (inp : Inputs) (df : DataFrame) (e : exn) :
  yf_download w (symbol inp) (start_date inp) (end_date inp) = Ok df →
  ticker_info w (symbol inp) = Raise e →
  spinner_block container_repr to_string w inp
    = MkM [ SpinnerStart "Fetching and analyzing data...";
            Download (symbol inp) (start_date inp) (end_date inp);
            FetchInfo (symbol inp);
            SpinnerStop ] (Raise e).
Proof.
  intros Hdl Hinfo. unfold spinner_block, with_spinner.
  rewrite bind_request, Hdl. cbn [result trace]. by rewrite bind_request, Hinfo.
Qed.

Lemma spinner_block_select_fails (w : World) (inp : Inputs) (df : DataFrame)
    (info : gmap string pyval) (e : exn) :
  yf_download w (symbol inp) (start_date inp) (end_date inp) = Ok df →
  ticker_info w (symbol inp) = Ok info →
  df_select df ["Open"; "Close"] = Raise e →
  spinner_block container_repr to_string w inp
    = MkM [ SpinnerStart "Fetching and analyzing data...";
            Download (symbol inp) (start_date inp) (end_date inp);
            FetchInfo (symbol inp);
            SpinnerStop ] (Raise e).
Proof.
  intros Hdl Hinfo Hsel. unfold spinner_block, with_spinner.
  rewrite bind_request, Hdl. cbn [result trace].
  rewrite bind_request, Hinfo. cbn [result trace].
  by rewrite bind_eval, Hsel.
Qed.

(** The statement fetch that failed was not one of the earlier ones. *)
Ltac earlier_statement_ok :=
  match goal with
  | Hstep : ticker_statement _ ?k _ = Raise _,
    Hprev : ∀ m k', m < _ → _ → is_ok _ = true |- _ =>
      first [ specialize (Hprev 0 k ltac:(lia) eq_refl)
            | specialize (Hprev 1 k ltac:(lia) eq_refl)
            | specialize (Hprev 2 k ltac:(lia) eq_refl)
            | specialize (Hprev 3 k ltac:(lia) eq_refl)
            | specialize (Hprev 4 k ltac:(lia) eq_refl) ];
      rewrite Hstep in Hprev; discriminate Hprev
  end.

Lemma spinner_block_statement_fails (w : World) (inp : Inputs) (df : DataFrame)
    (info : gmap string pyval) (n : nat) (kind : statement_kind) (e : exn) :
  yf_download w (symbol inp) (start_date inp) (end_date inp) = Ok df →
  ticker_info w (symbol inp) = Ok info →
  is_ok (df_select df ["Open"; "Close"]) = true →
  statement_order !! n = Some kind →
  (∀ m k, m < n → statement_order !! m = Some k →
          is_ok (ticker_statement w k (symbol inp)) = true) →
  ticker_statement w kind (symbol inp) = Raise e →
  spinner_block container_repr to_string w inp
    = MkM (SpinnerStart "Fetching and analyzing data..." ::
           Download (symbol inp) (start_date inp) (end_date inp) ::
           FetchInfo (symbol inp) ::
           ((λ k, FetchStatement k (symbol inp)) <$> take (S n) statement_order) ++
           [SpinnerStop]) (Raise e).
Proof.
  intros Hdl Hinfo Hsel Hkind Hprev Hfail.
  unfold spinner_block, with_spinner, fetch_statement.
  rewrite bind_request, Hdl. cbn [result trace].
  rewrite bind_request, Hinfo. cbn [result trace].
  rewrite bind_eval. destruct (df_select df _) as [oc|]; [|done].
  rewrite format_extract, bind_eval.
  destruct n as [|[|[|[|[|[|n]]]]]]; cbn in Hkind; [..| discriminate Hkind];
    injection Hkind as <-;
    do 6 (try (rewrite bind_request;
               first [ rewrite Hfail; reflexivity
                     | split_outcome; cbn [result trace];
                       [| earlier_statement_ok] ])).
Qed.

(** C8, amended.  Nothing catches an exception and nothing is retried.  An
    exception raised under the spinner (by the download, the metadata fetch,
    the selection of the Open and Close columns, or a statement fetch) ends
    the run with that exception, before anything is rendered or submitted:
    the run's events are the requests up to and including the one that
    failed, in program order, and the spinner being taken down, and no
    later request is issued.  An exception of the completion call ends the
    run with that exception after the subheader of the analysis column has
    been rendered; an exception while the candlestick figure is built ends it
    after the analysis and the subheader of the graph column have been
    rendered.  Elements rendered before the failing statement stay, nothing
    after it is rendered or requested.  A run that raises raises one of these
    exceptions, a run completes only if every step did, and no request is
    issued twice. *)
Theorem failure_aborts_run (w : World) (inp : Inputs) (e : exn) :
  (result (spinner_block container_repr to_string w inp) = Raise e →
     on_analyze container_repr to_string w inp
       = MkM (trace (spinner_block container_repr to_string w inp)) (Raise e) ∧
     (∀ c, rendered_in c (trace (on_analyze container_repr to_string w inp)) = []) ∧
     prompts (trace (on_analyze container_repr to_string w inp)) = [] ∧
     (yf_download w (symbol inp) (start_date inp) (end_date inp) = Raise e ∨
      ticker_info w (symbol inp) = Raise e ∨
      (∃ df, yf_download w (symbol inp) (start_date inp) (end_date inp) = Ok df ∧
             df_select df ["Open"; "Close"] = Raise e) ∨
      (∃ kind, ticker_statement w kind (symbol inp) = Raise e))) ∧
  (∀ p, result (spinner_block container_repr to_string w inp) = Ok p →
        llm_complete w (prompt_of p) = Raise e →
     on_analyze container_repr to_string w inp
       = MkM (fetched_trace inp ++ [analysis_header inp; Complete (prompt_of p)])
             (Raise e)) ∧
  (∀ p r, result (spinner_block container_repr to_string w inp) = Ok p →
          llm_complete w (prompt_of p) = Ok r →
          result (right_col inp p) = Raise e →
     on_analyze container_repr to_string w inp
       = MkM (fetched_trace inp ++
              [analysis_header inp; Complete (prompt_of p); analysis_body r;
               graph_header]) (Raise e)) ∧
  (result (on_analyze container_repr to_string w inp) = Raise e →
     result (spinner_block container_repr to_string w inp) = Raise e ∨
     (∃ p, result (spinner_block container_repr to_string w inp) = Ok p ∧
           (llm_complete w (prompt_of p) = Raise e ∨
            result (right_col inp p) = Raise e))) ∧
  (result (on_analyze container_repr to_string w inp) = Ok () ↔
     ∃ p, result (spinner_block container_repr to_string w inp) = Ok p ∧
          is_ok (llm_complete w (prompt_of p)) = true ∧
          is_ok (result (right_col inp p)) = true) ∧
  (is_ok (result (spinner_block container_repr to_string w inp)) = true ↔
     ∃ df info,
       yf_download w (symbol inp) (start_date inp) (end_date inp) = Ok df ∧
       ticker_info w (symbol inp) = Ok info ∧
       is_ok (df_select df ["Open"; "Close"]) = true ∧
       ∀ kind, is_ok (ticker_statement w kind (symbol inp)) = true) ∧
  NoDup (requests (trace (on_analyze container_repr to_string w inp))) ∧
  (yf_download w (symbol inp) (start_date inp) (end_date inp) = Raise e →
     on_analyze container_repr to_string w inp
       = MkM [ SpinnerStart "Fetching and analyzing data...";
               Download (symbol inp) (start_date inp) (end_date inp);
               SpinnerStop ] (Raise e)) ∧
  (∀ df, yf_download w (symbol inp) (start_date inp) (end_date inp) = Ok df →
         ticker_info w (symbol inp) = Raise e →
     on_analyze container_repr to_string w inp
       = MkM [ SpinnerStart "Fetching and analyzing data...";
               Download (symbol inp) (start_date inp) (end_date inp);
               FetchInfo (symbol inp);
               SpinnerStop ] (Raise e)) ∧
  (∀ df info,
     yf_download w (symbol inp) (start_date inp) (end_date inp) = Ok df →
     ticker_info w (symbol inp) = Ok info →
     df_select df ["Open"; "Close"] = Raise e →
     on_analyze container_repr to_string w inp
       = MkM [ SpinnerStart "Fetching and analyzing data...";
               Download (symbol inp) (start_date inp) (end_date inp);
               FetchInfo (symbol inp);
               SpinnerStop ] (Raise e)) ∧
  (∀ df info n kind,
     yf_download w (symbol inp) (start_date inp) (end_date inp) = Ok df →
     ticker_info w (symbol inp) = Ok info →
     is_ok (df_select df ["Open"; "Close"]) = true →
     [ IncomeStmt; QuarterlyIncomeStmt; BalanceSheet; QuarterlyBalanceSheet;
       Cashflow; QuarterlyCashflow ] !! n = Some kind →
     (∀ m k, m < n →
        [ IncomeStmt; QuarterlyIncomeStmt; BalanceSheet; QuarterlyBalanceSheet;
          Cashflow; QuarterlyCashflow ] !! m = Some k →
        is_ok (ticker_statement w k (symbol inp)) = true) →
     ticker_statement w kind (symbol inp) = Raise e →
     on_analyze container_repr to_string w inp
       = MkM (SpinnerStart "Fetching and analyzing data..." ::
              Download (symbol inp) (start_date inp) (end_date inp) ::
              FetchInfo (symbol inp) ::
              ((λ k, FetchStatement k (symbol inp))
                 <$> take (S n) [ IncomeStmt; QuarterlyIncomeStmt; BalanceSheet;
                                  QuarterlyBalanceSheet; Cashflow; QuarterlyCashflow ]) ++
              [SpinnerStop]) (Raise e)).
Proof.
  split.
  { intros He. rewrite (on_analyze_not_fetched _ _ _ He). cbn [trace].
    apply spinner_block_raise in He as (Horigin & Hrender & Hprompts & _). done. }
  split.
  { intros p Hp Hllm. by rewrite (on_analyze_fetched _ _ _ Hp), Hllm. }
  split.
  { intros p r Hp Hllm Hright. rewrite (on_analyze_fetched _ _ _ Hp), Hllm.
    rewrite right_col_spec in Hright.
    destruct (candlestick_figure inp p); [done | by injection Hright as ->]. }
  split.
  { destruct (result (spinner_block container_repr to_string w inp)) as [p|e'] eqn:Hp.
    - rewrite (on_analyze_fetched _ _ _ Hp). intros Hrun.
      right. exists p. split; [done |]. rewrite right_col_spec.
      destruct (llm_complete w (prompt_of p)) as [r|e''];
        [| injection Hrun as ->; by left].
      right. by destruct (candlestick_figure inp p).
    - rewrite (on_analyze_not_fetched _ _ _ Hp). intros [= ->]. by left. }
  split.
  { destruct (result (spinner_block container_repr to_string w inp)) as [p|e'] eqn:Hp.
    - rewrite (on_analyze_fetched _ _ _ Hp). split.
      + intros Hok. exists p. rewrite right_col_spec. split; [done |].
        destruct (llm_complete w (prompt_of p)); [|done].
        by destruct (candlestick_figure inp p).
      + intros (p' & [= <-] & Hllm & Hright). rewrite right_col_spec in Hright.
        destruct (llm_complete w (prompt_of p)); [|done].
        by destruct (candlestick_figure inp p).
    - rewrite (on_analyze_not_fetched _ _ _ Hp).
      split; [done | by intros (p' & [=] & _)]. }
  split; [apply spinner_block_ok_iff |].
  split; [apply on_analyze_requests_NoDup |].
  assert (Hrun : ∀ tr, spinner_block container_repr to_string w inp = MkM tr (Raise e) →
                       on_analyze container_repr to_string w inp = MkM tr (Raise e)).
  { intros tr Hsp. rewrite (on_analyze_not_fetched w inp e); by rewrite Hsp. }
  split; [intros Hdl; by apply Hrun, spinner_block_download_fails |].
  split; [intros df Hdl Hinfo; by eapply Hrun, spinner_block_info_fails |].
  split; [intros df info Hdl Hinfo Hsel; by eapply Hrun, spinner_block_select_fails |].
  intros df info n kind Hdl Hinfo Hsel Hkind Hprev Hfail.
  by eapply Hrun, spinner_block_statement_fails.
Qed.

End ScriptFacts.

(** ** The properties at work on the demo world *)

Lemma extract_shape_and_fields_demo :
  Demo.sparse_info !! "marketCap" = None ∧
  Demo.sparse_info !! "currentPrice" = Some (VFloat "189.5") ∧
  slot_get (extract_specific_fundamental_data Demo.sparse_info)
    (Top "Market Cap (Kapitalisasi Pasar)") = Some (VStr "N/A") ∧
  slot_get (extract_specific_fundamental_data Demo.sparse_info)
    (Top "Current Price (Harga Saham Saat Ini)") = Some (VFloat "189.5").
Proof.
  destruct (extract_shape_and_fields Demo.sparse_info) as (_ & _ & _ & Hfields).
  split; [reflexivity |]. split; [reflexivity |]. split.
  - destruct (Hfields "marketCap" (Top "Market Cap (Kapitalisasi Pasar)"))
      as [Habsent _]; [| apply Habsent; reflexivity].
    unfold tracked_fields. rewrite !elem_of_cons. tauto.
  - destruct (Hfields "currentPrice" (Top "Current Price (Harga Saham Saat Ini)"))
      as [_ Hpresent]; [| apply Hpresent; reflexivity].
    unfold tracked_fields. rewrite !elem_of_cons. tauto.
Defined.

Lemma format_complete_record_demo :
  Demo.record !! "Dividend Yield (Hasil Dividen)" = Some (VFloat "0.0052") ∧
  Demo.record !! "Price to Earnings Ratio (P/E Ratio)" = Some (VDict Demo.pe_pair) ∧
  ∃ text,
    format_specific_fundamental_data Demo.repr Demo.record = Ok text ∧
    text = fundamental_text "189.5" "2900000000000" "29.4" "26.1" "0.0052" "1.4725" ∧
    in_order [ "**Dividend Yield (Hasil Dividen)**: "; "0.0052%";
               "**Return on Equity (ROE)**: "; "1.4725%" ] text.
Proof.
  split; [reflexivity |]. split; [reflexivity |].
  destruct (format_complete_record Demo.repr Demo.record Demo.pe_pair
              (VFloat "189.5") (VInt 2900000000000) (VFloat "29.4") (VFloat "26.1")
              (VFloat "0.0052") (VFloat "1.4725"))
    as (text & Hfmt & Htext & Horder); try reflexivity.
  exists text. split; [exact Hfmt |]. split; [exact Htext |].
  cbn [in_order] in Horder.
  destruct Horder as (? & ? & _ & ? & ? & _ & ? & ? & _ & ? & ? & _ & ? & ? & _ &
                      ? & ? & _ & ? & ? & _ & ? & ? & _ & ? & ? & _ & Hrest).
  rewrite Htext. clear. cbn [in_order].
  exists ("**Current Price (Harga Saham Saat Ini)**: 189.5 IDR" +:+ LF +:+ LF +:+
          "**Market Cap (Kapitalisasi Pasar)**: 2900000000000 IDR" +:+ LF +:+ LF +:+
          "**Price to Earnings Ratio (P/E Ratio)**:" +:+ LF +:+
          "  - Trailing P/E: 29.4" +:+ LF +:+
          "  - Forward P/E: 26.1" +:+ LF +:+ LF).
  eexists. split; [reflexivity |].
  exists "". eexists. split; [reflexivity |].
  exists (LF +:+ LF). eexists. split; [reflexivity |].
  exists "", "". split; [reflexivity | exact I].
Defined.

Lemma null_field_passes_through_demo :
  Demo.sparse_info !! "dividendYield" = Some VNone ∧
  slot_get (extract_specific_fundamental_data Demo.sparse_info)
    (Top "Dividend Yield (Hasil Dividen)") = Some VNone ∧
  py_str Demo.repr (dict_get Demo.sparse_info "dividendYield" (VStr "N/A")) = "None".
Proof.
  split; [reflexivity |].
  destruct (null_field_passes_through Demo.repr Demo.sparse_info "dividendYield"
              (Top "Dividend Yield (Hasil Dividen)")) as (Hslot & _ & Hstr & _).
  - unfold tracked_fields. rewrite !elem_of_cons. tauto.
  - reflexivity.
  - split; [exact Hslot | exact Hstr].
Defined.

Lemma demo_spinner_block (q : DataFrame) :
  result (spinner_block Demo.repr Demo.to_string (Demo.world q) Demo.inputs)
    = Ok (Demo.prepared q).
Proof. reflexivity. Qed.

Lemma prompt_holds_both_blocks_demo :
  result (spinner_block Demo.repr Demo.to_string (Demo.world Demo.quarterly) Demo.inputs)
    = Ok (Demo.prepared Demo.quarterly) ∧
  prompts (trace (on_analyze Demo.repr Demo.to_string (Demo.world Demo.quarterly)
                    Demo.inputs))
    = [prompt_text (Demo.to_string Demo.open_close)
         (fundamental_text "189.5" "2900000000000" "29.4" "26.1" "0.0052" "1.4725")] ∧
  Demo.to_string Demo.open_close
    = "Open Close" +:+ LF +:+
      "2024-01-02 187.15 185.64" +:+ LF +:+
      "2024-01-03 184.22 184.25" ∧
  technical_data (Demo.prepared Demo.quarterly)
    = Demo.to_string
        {| df_index := ["2024-01-02"; "2024-01-03"];
           df_columns := [ ("Open", [VFloat "187.15"; VFloat "184.22"]);
                           ("Close", [VFloat "185.64"; VFloat "184.25"]) ] |}.
Proof.
  split; [reflexivity |].
  destruct (prompt_holds_both_blocks Demo.repr Demo.to_string
              (Demo.world Demo.quarterly) Demo.inputs (Demo.prepared Demo.quarterly))
    as (_ & oc & info & text & _ & Hsel & _ & Hinfo & Hfmt & Hprompts & _ & _ &
        Htech & _); [reflexivity |].
  injection Hsel as <-. injection Hinfo as <-. injection Hfmt as <-.
  split; [exact Hprompts |]. split; [reflexivity | exact Htech].
Defined.

Lemma missing_revenue_row_fallback_demo :
  in_index "Total Revenue" Demo.quarterly_no_revenue = false ∧
  result (on_analyze Demo.repr Demo.to_string (Demo.world Demo.quarterly_no_revenue)
            Demo.inputs) = Ok () ∧
  rendered_in Tab3
    (trace (on_analyze Demo.repr Demo.to_string (Demo.world Demo.quarterly_no_revenue)
              Demo.inputs))
    = [Subheader "Total Revenue per Quarter"; WriteText not_found_notice] ∧
  Forall (λ ev, plots_bar ev = false)
    (trace (on_analyze Demo.repr Demo.to_string (Demo.world Demo.quarterly_no_revenue)
              Demo.inputs)) ∧
  rendered_in Tab3
    (trace (on_analyze Demo.repr Demo.to_string (Demo.world Demo.quarterly_no_revenue)
              Demo.inputs))
    = [ Subheader "Total Revenue per Quarter";
        WriteText "Row 'Total Revenue' not found in the quarterly income statement." ].
Proof.
  split; [reflexivity |].
  destruct (missing_revenue_row_fallback Demo.repr Demo.to_string
              (Demo.world Demo.quarterly_no_revenue) Demo.inputs
              (Demo.prepared Demo.quarterly_no_revenue))
    as (_ & Hbar & Hrun & _ & Hshown & _); [reflexivity | reflexivity |].
  destruct Hrun as [Hrun Htab3]; [reflexivity |].
  split; [by rewrite Hrun |]. split; [exact Htab3 |]. split; [exact Hbar |].
  exact Hshown.
Defined.

(** C4, as stated, fails: the quarterly income statement has no Total
    Revenue line, the completion call raises, the exception ends the run
    before the third tab, and the notice is not rendered. *)
Lemma no_fallback_notice_when_llm_fails :
  ticker_statement Demo.llm_down_no_revenue QuarterlyIncomeStmt "AAPL"
    = Ok Demo.quarterly_no_revenue ∧
  in_index "Total Revenue" Demo.quarterly_no_revenue = false ∧
  result (on_analyze Demo.repr Demo.to_string Demo.llm_down_no_revenue Demo.inputs)
    = Raise (ExternalError "401 invalid api key") ∧
  rendered_in Tab3
    (trace (on_analyze Demo.repr Demo.to_string Demo.llm_down_no_revenue Demo.inputs))
    = [].
Proof. repeat split. Qed.

Lemma revenue_series_drops_missing_demo :
  statement_frame Demo.quarterly_reported ∧
  in_index "Total Revenue" Demo.quarterly_reported = true ∧
  df_loc Demo.quarterly_reported "Total Revenue"
    = Ok [ ("2024-03-31", VFloat "90753000000.0"); ("2023-12-31", VFloat "nan");
           ("2023-09-30", VFloat "89498000000.0"); ("2023-06-30", VNone) ] ∧
  total_revenue Demo.quarterly_reported
    = Ok [ ("2024-03-31", VFloat "90753000000.0");
           ("2023-09-30", VFloat "89498000000.0") ] ∧
  tab3 Demo.inputs Demo.quarterly_reported
    = MkM [ Render Tab3 (Subheader "Total Revenue per Quarter");
            Render Tab3 (PlotlyChart
              {| fig_data :=
                   [ Bar ["2024-03-31"; "2023-09-30"]
                         [VFloat "90753000000.0"; VFloat "89498000000.0"]
                         "Total Revenue" ];
                 fig_title := Some "AAPL Total Revenue per Quarter";
                 fig_xaxis_title := Some "Quarter";
                 fig_yaxis_title := Some "Amount (IDR)" |}) ]
          (Ok ()) ∧
  ∃ (row : Series) (i : nat),
    df_loc Demo.quarterly_reported "Total Revenue" = Ok row ∧
    df_index Demo.quarterly_reported !! i = Some "Total Revenue" ∧
    sublist (dropna row) row.
Proof.
  assert (Hframe : statement_frame Demo.quarterly_reported).
  { split.
    - repeat (apply NoDup_cons_2;
                [rewrite ?elem_of_cons, elem_of_nil; intuition congruence |]).
      apply NoDup_nil_2.
    - repeat constructor. }
  split; [exact Hframe |].
  split; [reflexivity |]. split; [reflexivity |]. split; [reflexivity |].
  split; [reflexivity |].
  destruct (revenue_series_drops_missing Demo.inputs Demo.quarterly_reported Hframe)
    as (row & i & figures & Hrow & _ & _ & Hsub & _ & _ & _ & _ & Hi & _);
    [reflexivity |].
  exists row, i. split; [exact Hrow |]. split; [exact Hi | exact Hsub].
Defined.

Lemma narrative_call_per_run_demo :
  completions (trace (on_analyze Demo.repr Demo.to_string (Demo.world Demo.quarterly)
                        Demo.inputs)) = 1 ∧
  completions (trace (on_analyze Demo.repr Demo.to_string Demo.offline Demo.inputs)) = 0.
Proof.
  split.
  - destruct (narrative_call_per_run Demo.repr Demo.to_string
                (Demo.world Demo.quarterly) Demo.inputs) as (_ & _ & Hcount & _).
    exact Hcount.
  - destruct (narrative_call_per_run Demo.repr Demo.to_string Demo.offline Demo.inputs)
      as (_ & _ & Hcount & _).
    exact Hcount.
Defined.

(** C6, as stated, fails: the button is pressed, the statement fetches fail
    after the two text blocks were prepared, and the run ends without a
    single completion request. *)
Lemma no_narrative_call_when_fetch_fails :
  analyze_button Demo.inputs = true ∧
  result (script Demo.repr Demo.to_string Demo.statements_down Demo.inputs)
    = Raise (ExternalError "read timed out") ∧
  completions (trace (script Demo.repr Demo.to_string Demo.statements_down Demo.inputs))
    = 0.
Proof. repeat split. Qed.

Lemma failure_aborts_run_demo :
  result (spinner_block Demo.repr Demo.to_string Demo.llm_down Demo.inputs)
    = Ok (Demo.prepared Demo.quarterly) ∧
  llm_complete Demo.llm_down (prompt_of (Demo.prepared Demo.quarterly))
    = Raise (ExternalError "401 invalid api key") ∧
  on_analyze Demo.repr Demo.to_string Demo.llm_down Demo.inputs
    = MkM (fetched_trace Demo.inputs ++
           [analysis_header Demo.inputs;
            Complete (prompt_of (Demo.prepared Demo.quarterly))])
          (Raise (ExternalError "401 invalid api key")) ∧
  on_analyze Demo.repr Demo.to_string Demo.offline Demo.inputs
    = MkM [ SpinnerStart "Fetching and analyzing data...";
            Download "AAPL" "2024-01-01" "2024-01-04";
            SpinnerStop ] (Raise (ExternalError "connection refused")) ∧
  on_analyze Demo.repr Demo.to_string Demo.info_down Demo.inputs
    = MkM [ SpinnerStart "Fetching and analyzing data...";
            Download "AAPL" "2024-01-01" "2024-01-04";
            FetchInfo "AAPL";
            SpinnerStop ] (Raise (ExternalError "connection reset")) ∧
  on_analyze Demo.repr Demo.to_string Demo.balance_sheet_down Demo.inputs
    = MkM [ SpinnerStart "Fetching and analyzing data...";
            Download "AAPL" "2024-01-01" "2024-01-04";
            FetchInfo "AAPL";
            FetchStatement IncomeStmt "AAPL";
            FetchStatement QuarterlyIncomeStmt "AAPL";
            FetchStatement BalanceSheet "AAPL";
            SpinnerStop ] (Raise (ExternalError "read timed out")).
Proof.
  split; [reflexivity |]. split; [reflexivity |].
  split.
  { destruct (failure_aborts_run Demo.repr Demo.to_string Demo.llm_down Demo.inputs
                (ExternalError "401 invalid api key")) as (_ & Hllm & _).
    apply (Hllm (Demo.prepared Demo.quarterly)); reflexivity. }
  split.
  { destruct (failure_aborts_run Demo.repr Demo.to_string Demo.offline Demo.inputs
                (ExternalError "connection refused"))
      as (_ & _ & _ & _ & _ & _ & _ & Hdl & _).
    apply Hdl. reflexivity. }
  split.
  { destruct (failure_aborts_run Demo.repr Demo.to_string Demo.info_down Demo.inputs
                (ExternalError "connection reset"))
      as (_ & _ & _ & _ & _ & _ & _ & _ & Hinfo & _).
    apply (Hinfo Demo.prices); reflexivity. }
  destruct (failure_aborts_run Demo.repr Demo.to_string Demo.balance_sheet_down
              Demo.inputs (ExternalError "read timed out"))
    as (_ & _ & _ & _ & _ & _ & _ & _ & _ & _ & Hst).
  apply (Hst Demo.prices Demo.info 2 BalanceSheet); try reflexivity.
  intros [|[|m]] k Hm Hk; cbn in Hk; [by injection Hk as <- .. | lia].
Defined.

(** C8, as stated, fails: the completion call raises, the exception ends the
    run, and the analysis column, which depends on that call, is left with
    its subheader rendered. *)
Lemma partial_output_when_llm_fails :
  result (on_analyze Demo.repr Demo.to_string Demo.llm_down Demo.inputs)
    = Raise (ExternalError "401 invalid api key") ∧
  rendered_in LeftCol (trace (on_analyze Demo.repr Demo.to_string Demo.llm_down Demo.inputs))
    = [Subheader "Analysis for AAPL"].
Proof. split; reflexivity. Qed.

(** * Further properties of the code *)

(** X1. The extractor reads the six tracked provider fields and nothing
    else: two mappings that agree on them give the same record. *)
Theorem extract_reads_only_tracked_fields (d d' : gmap string pyval) :
  (∀ field, field ∈ tracked_fields.*1 → d !! field = d' !! field) →
  extract_specific_fundamental_data d = extract_specific_fundamental_data d'.
Proof.
  intros Hsame. unfold extract_specific_fundamental_data, dict_get.
  rewrite !Hsame; [done | ..]; unfold tracked_fields; cbn; rewrite !elem_of_cons; tauto.
Qed.

(** X2. A field whose value is the string "N/A" cannot be told from a
    field that is absent: both mappings give the same record. *)
Theorem sentinel_indistinguishable_from_absent (d : gmap string pyval) (field : string) :
  extract_specific_fundamental_data (<[field := VStr "N/A"]> d)
    = extract_specific_fundamental_data (delete field d).
Proof.
  assert (Hget : ∀ g, dict_get (<[field := VStr "N/A"]> d) g (VStr "N/A")
                      = dict_get (delete field d) g (VStr "N/A")).
  { intros g. unfold dict_get. destruct (decide (field = g)) as [->|Hne].
    - by rewrite lookup_insert_eq, lookup_delete_eq.
    - by rewrite lookup_insert_ne, lookup_delete_ne. }
  unfold extract_specific_fundamental_data. by rewrite !Hget.
Qed.

Section FormatterErrors.
Variable container_repr : pyval -> string.

(** X3. The formatter reads the five top-level entries and nothing else:
    two dicts that agree on them give the same text or the same exception. *)
Theorem format_reads_only_its_keys (sd sd' : gmap string pyval) :
  (∀ key, key ∈ top_level_keys → sd !! key = sd' !! key) →
  format_specific_fundamental_data container_repr sd
    = format_specific_fundamental_data container_repr sd'.
Proof.
  intros Hsame. unfold format_specific_fundamental_data, dict_getitem.
  rewrite !Hsame; [done | ..]; unfold top_level_keys; set_solver.
Qed.

(** X4. The formatter raises nothing but a KeyError for one of the keys it
    subscripts or a TypeError; it raises TypeError exactly when the two
    entries before the P/E entry are there and the P/E entry is there but is
    no dict. *)
Theorem format_error_kinds (sd : gmap string pyval) (e : exn) :
  (format_specific_fundamental_data container_repr sd = Raise e →
     e = TypeError ∨
     ∃ key, e = KeyError key ∧ key ∈ template_keys ++ ["Trailing P/E"; "Forward P/E"]) ∧
  (format_specific_fundamental_data container_repr sd = Raise TypeError ↔
     is_Some (sd !! "Current Price (Harga Saham Saat Ini)") ∧
     is_Some (sd !! "Market Cap (Kapitalisasi Pasar)") ∧
     ∃ v, sd !! "Price to Earnings Ratio (P/E Ratio)" = Some v ∧ ∀ pe, v ≠ VDict pe).
Proof.
  unfold format_specific_fundamental_data, dict_getitem, template_keys.
  destruct (sd !! "Current Price (Harga Saham Saat Ini)") as [cp|]; simpl;
    [| split; [intros [= <-]; right; eexists; split; [done | rewrite !elem_of_cons; tauto]
              | split; [done | by intros ([? ?] & _)]]].
  destruct (sd !! "Market Cap (Kapitalisasi Pasar)") as [mc|]; simpl;
    [| split; [intros [= <-]; right; eexists; split; [done | rewrite !elem_of_cons; tauto]
              | split; [done | by intros (_ & [? ?] & _)]]].
  destruct (sd !! "Price to Earnings Ratio (P/E Ratio)") as [v|]; simpl;
    [| split; [intros [= <-]; right; eexists; split; [done | rewrite !elem_of_cons; tauto]
              | split; [done | by intros (_ & _ & ? & ? & _)]]].
  destruct v as [| | | | | |pe]; simpl;
    try (split; [intros [= <-]; by left | split; [intros _; repeat split; eauto | done]]).
  unfold dict_getitem.
  destruct (pe !! "Trailing P/E") as [tpe|]; simpl;
    [| split; [intros [= <-]; right; eexists; split; [done | rewrite !elem_of_cons; tauto]
              | split; [done | intros (_ & _ & v & [= <-] & Hv); by destruct (Hv pe)]]].
  unfold dict_getitem.
  destruct (pe !! "Forward P/E") as [fpe|]; simpl;
    [| split; [intros [= <-]; right; eexists; split; [done | rewrite !elem_of_cons; tauto]
              | split; [done | intros (_ & _ & v & [= <-] & Hv); by destruct (Hv pe)]]].
  destruct (sd !! "Dividend Yield (Hasil Dividen)") as [dy|]; simpl;
    [| split; [intros [= <-]; right; eexists; split; [done | rewrite !elem_of_cons; tauto]
              | split; [done | intros (_ & _ & v & [= <-] & Hv); by destruct (Hv pe)]]].
  destruct (sd !! "Return on Equity (ROE)") as [roe|]; simpl;
    [| split; [intros [= <-]; right; eexists; split; [done | rewrite !elem_of_cons; tauto]
              | split; [done | intros (_ & _ & v & [= <-] & Hv); by destruct (Hv pe)]]].
  split; [done | split; [done | intros (_ & _ & v & [= <-] & Hv); by destruct (Hv pe)]].
Qed.

(** X5. A KeyError of the formatter for a top-level key names the first
    top-level key, in the order of the template, that the dict lacks. *)
Theorem format_key_error_is_first_missing (sd : gmap string pyval) (key : string) :
  key ∈ template_keys →
  format_specific_fundamental_data container_repr sd = Raise (KeyError key) →
  sd !! key = None ∧
  ∃ before after,
    template_keys = before ++ key :: after ∧
    ∀ earlier, earlier ∈ before → is_Some (sd !! earlier).
Proof.
  unfold format_specific_fundamental_data, dict_getitem, template_keys.
  intros Hkey.
  destruct (sd !! "Current Price (Harga Saham Saat Ini)") as [cp|] eqn:Hcp; simpl;
    [| intros [= <-]; split; [done |]; exists []; eexists; split; [done |];
       intros ? []%elem_of_nil].
  destruct (sd !! "Market Cap (Kapitalisasi Pasar)") as [mc|] eqn:Hmc; simpl;
    [| intros [= <-]; split; [done |];
       exists ["Current Price (Harga Saham Saat Ini)"]; eexists; split; [done |];
       intros ?; rewrite !elem_of_cons, elem_of_nil; intuition (subst; eauto; congruence)].
  destruct (sd !! "Price to Earnings Ratio (P/E Ratio)") as [v|] eqn:Hpe; simpl;
    [| intros [= <-]; split; [done |];
       exists ["Current Price (Harga Saham Saat Ini)"; "Market Cap (Kapitalisasi Pasar)"];
       eexists; split; [done |];
       intros ?; rewrite !elem_of_cons, elem_of_nil; intuition (subst; eauto; congruence)].
  destruct v as [| | | | | |pe]; simpl; try done.
  unfold dict_getitem.
  destruct (pe !! "Trailing P/E") as [tpe|]; simpl;
    [| intros [= <-]; exfalso; revert Hkey; rewrite !elem_of_cons, elem_of_nil;
       intuition (subst; eauto; congruence)].
  unfold dict_getitem.
  destruct (pe !! "Forward P/E") as [fpe|]; simpl;
    [| intros [= <-]; exfalso; revert Hkey; rewrite !elem_of_cons, elem_of_nil;
       intuition (subst; eauto; congruence)].
  destruct (sd !! "Dividend Yield (Hasil Dividen)") as [dy|] eqn:Hdy; simpl;
    [| intros [= <-]; split; [done |];
       exists ["Current Price (Harga Saham Saat Ini)"; "Market Cap (Kapitalisasi Pasar)";
               "Price to Earnings Ratio (P/E Ratio)"];
       eexists; split; [done |];
       intros ?; rewrite !elem_of_cons, elem_of_nil; intuition (subst; eauto; congruence)].
  destruct (sd !! "Return on Equity (ROE)") as [roe|] eqn:Hroe; simpl; [done |].
  intros [= <-]; split; [done |].
  exists ["Current Price (Harga Saham Saat Ini)"; "Market Cap (Kapitalisasi Pasar)";
          "Price to Earnings Ratio (P/E Ratio)"; "Dividend Yield (Hasil Dividen)"].
  eexists; split; [done |].
  intros ?; rewrite !elem_of_cons, elem_of_nil; intuition (subst; eauto; congruence).
Qed.
End FormatterErrors.

(** X6. The two blocks are not delimited in the prompt: text that follows
    the section header inside the technical block is taken for fundamental
    data, the request and the outcome being the same as when it is passed as
    fundamental data. *)
Theorem prompt_blocks_not_delimited (w : World) (a b c : string) :
  analyze_stock_data w (a +:+ prompt_middle +:+ b) c
    = analyze_stock_data w a (b +:+ prompt_middle +:+ c).
Proof.
  rewrite !analyze_stock_data_spec.
  assert (Heq : prompt_text (a +:+ prompt_middle +:+ b) c
                = prompt_text a (b +:+ prompt_middle +:+ c))
    by (unfold prompt_text; by rewrite !string_app_assoc).
  by rewrite Heq.
Qed.

(** X7. load_lottie_url gives None for every response whose status is not
    200, whatever its body, and also for a 200 response whose body is the
    JSON null; it raises exactly when the request raises or when a 200
    response has a body that does not parse; any other value it gives is the
    parsed body of a 200 response. *)
Theorem load_lottie_url_outcomes (get : string → outcome HttpResponse) (url : string) :
  (load_lottie_url get url = Ok VNone ↔
     ∃ r, get url = Ok r ∧ (status_code r ≠ 200%Z ∨ json r = Ok VNone)) ∧
  (∀ e, load_lottie_url get url = Raise e ↔
     get url = Raise e ∨
     ∃ r, get url = Ok r ∧ status_code r = 200%Z ∧ json r = Raise e) ∧
  (∀ v, v ≠ VNone →
     (load_lottie_url get url = Ok v ↔
      ∃ r, get url = Ok r ∧ status_code r = 200%Z ∧ json r = Ok v)).
Proof.
  unfold load_lottie_url. destruct (get url) as [r|e0]; simpl.
  - destruct (decide (status_code r ≠ 200%Z)) as [Hne|Heq%dec_stable];
      unfold mret, outcome_ret.
    + split; [| split].
      * split; [eauto | done].
      * intros e. split; [done |].
        intros [H | (r' & H & Hs & _)]; [done | congruence].
      * intros v Hv. split; [by intros [= <-] |].
        intros (r' & H & Hs & _). congruence.
    + split; [| split].
      * split; [eauto |]. intros (r' & H & [Hs | Hj]); congruence.
      * intros e. split; [eauto 6 |].
        intros [H | (r' & H & _ & Hj)]; congruence.
      * intros v _. split; [eauto |]. intros (r' & H & _ & Hj). congruence.
  - split; [| split].
    + split; [done | by intros (r & H & _)].
    + intros e. split; [intros [= <-]; by left |].
      intros [H | (r & H & _)]; congruence.
    + intros v _. split; [done | by intros (r & H & _)].
Qed.

Lemma df_select_open_close (df sel : DataFrame) :
  df_select df ["Open"; "Close"] = Ok sel →
  ∃ o c, df_column df "Open" = Ok o ∧ df_column df "Close" = Ok c ∧
         sel = {| df_index := df_index df; df_columns := [("Open", o); ("Close", c)] |}.
Proof.
  unfold df_select. simpl.
  destruct (df_column df "Open") as [o|]; [|done].
  destruct (df_column df "Close") as [c|]; [|done].
  simpl. intros [= <-]. eauto.
Qed.

Lemma dropna_clean (s : Series) : Forall (λ e : string * pyval, isna e.2 = false) (dropna s).
Proof. unfold dropna. apply Forall_forall. by intros e [? _]%list_elem_of_filter. Qed.

Lemma dropna_id (s : Series) :
  Forall (λ e : string * pyval, isna e.2 = false) s → dropna s = s.
Proof.
  unfold dropna. induction 1 as [|e s He _ IH]; [done |].
  by rewrite filter_cons_True, IH.
Qed.

Lemma dropna_all_missing (s : Series) :
  Forall (λ e : string * pyval, isna e.2 = true) s → dropna s = [].
Proof.
  unfold dropna. induction 1 as [|e s He _ IH]; [done |].
  rewrite filter_cons_False; [done | congruence].
Qed.

Lemma elem_of_rendered_in (c : container) (el : element) (tr : list event) :
  el ∈ rendered_in c tr ↔ Render c el ∈ tr.
Proof.
  unfold rendered_in. rewrite list_elem_of_omap. split.
  - intros (ev & Hev & Hsome). destruct ev as [| | | | | |c' el']; try done.
    destruct (decide (c' = c)) as [->|]; [|done]. by injection Hsome as ->.
  - intros Hin. exists (Render c el). split; [done |].
    by rewrite decide_True.
Qed.

Section RunFacts.
Variable container_repr : pyval -> string.
Variable to_string : DataFrame -> string.

(** X8. Of all the data fetched, only the row labels and the Open and
    Close columns of the price frame and the metadata reach the model: two
    runs that agree on these submit the same prompt, whatever the other
    columns, the statements and the model's answers are. *)
Theorem only_open_close_and_metadata_reach_the_model
    (w w' : World) (inp inp' : Inputs) (p p' : Prepared) :
  result (spinner_block container_repr to_string w inp) = Ok p →
  result (spinner_block container_repr to_string w' inp') = Ok p' →
  df_index (stock_data p) = df_index (stock_data p') →
  df_column (stock_data p) "Open" = df_column (stock_data p') "Open" →
  df_column (stock_data p) "Close" = df_column (stock_data p') "Close" →
  ticker_info w (symbol inp) = ticker_info w' (symbol inp') →
  prompts (trace (on_analyze container_repr to_string w inp))
    = prompts (trace (on_analyze container_repr to_string w' inp')) ∧
  technical_data p = technical_data p' ∧
  fundamental_data_str p = fundamental_data_str p'.
Proof.
  intros Hp Hp' Hidx Hopen Hclose Hinfo.
  rewrite !prompts_on_analyze, Hp, Hp'.
  apply spinner_block_ok in Hp as (info & oc & _ & Hi & Hsel & Htech & Hfmt & _).
  apply spinner_block_ok in Hp' as (info' & oc' & _ & Hi' & Hsel' & Htech' & Hfmt' & _).
  apply df_select_open_close in Hsel as (o & c & Ho & Hc & ->).
  apply df_select_open_close in Hsel' as (o' & c' & Ho' & Hc' & ->).
  assert (info = info') as <- by congruence.
  assert (o = o') as <- by congruence.
  assert (c = c') as <- by congruence.
  assert (Ht : technical_data p = technical_data p') by (rewrite Htech, Htech'; by rewrite Hidx).
  assert (Hf : fundamental_data_str p = fundamental_data_str p') by congruence.
  unfold prompt_of. by rewrite Ht, Hf.
Qed.

(** X9. The second tab is rendered whole or not at all: its seventeen
    elements, among them the formatted fundamentals, when the fetches, the
    completion call and the candlestick figure succeed, and nothing
    otherwise. *)
Theorem tab2_all_or_nothing (w : World) (inp : Inputs) :
  match result (spinner_block container_repr to_string w inp) with
  | Raise _ => rendered_in Tab2 (trace (on_analyze container_repr to_string w inp)) = []
  | Ok p =>
      rendered_in Tab2 (trace (on_analyze container_repr to_string w inp)) =
      (if is_ok (result (before_tab3 w inp p))
       then rendered_in Tab2 (trace (tab2 p)) else []) ∧
      length (rendered_in Tab2 (trace (tab2 p))) = 17 ∧
      Markdown (fundamental_data_str p) false ∈ rendered_in Tab2 (trace (tab2 p))
  end.
Proof.
  destruct (result (spinner_block container_repr to_string w inp)) as [p|e] eqn:Hp.
  - rewrite (on_analyze_fetched _ _ _ _ _ Hp), before_tab3_spec, tab2_spec.
    split; [| split; [reflexivity |]].
    + destruct (llm_complete w (prompt_of p)) as [r|e]; [|reflexivity].
      destruct (candlestick_figure inp p) as [fig|e]; [|reflexivity].
      cbn [trace result is_ok]. rewrite !rendered_in_app, tab3_spec.
      destruct (df_loc _ _); cbn [trace];
        change (rendered_in Tab2 (fetched_trace inp)) with (@nil element);
        rewrite app_nil_l; apply app_nil_r.
    + cbn [trace]. apply elem_of_rendered_in. unfold tab2_events.
      rewrite !elem_of_cons. tauto.
  - rewrite (on_analyze_not_fetched _ _ _ _ _ Hp). cbn [trace].
    by apply spinner_block_raise in Hp as (_ & -> & _).
Qed.

(** X10. Once the block under the spinner is through, the Open and Close
    columns are known to exist, so building the candlestick figure can only
    fail for a missing High or Low column, and then the graph column holds
    its subheader only. *)
Theorem candlestick_fails_only_on_high_or_low
    (w : World) (inp : Inputs) (p : Prepared) (e : exn) :
  result (spinner_block container_repr to_string w inp) = Ok p →
  result (right_col inp p) = Raise e →
  (e = KeyError "High" ∨ e = KeyError "Low") ∧
  trace (right_col inp p) = [graph_header].
Proof.
  intros Hp. apply spinner_block_ok in Hp as (_ & oc & _ & _ & Hsel & _).
  apply df_select_open_close in Hsel as (o & c & Ho & Hc & _).
  rewrite right_col_spec. unfold candlestick_figure, df_getitem.
  rewrite Ho. simpl.
  destruct (df_column (stock_data p) "High") as [h|] eqn:Hh; simpl;
    [| unfold df_column in Hh; destruct (assoc _ _); [done |];
       injection Hh as <-; intros [= <-]; auto].
  destruct (df_column (stock_data p) "Low") as [l|] eqn:Hl; simpl;
    [| unfold df_column in Hl; destruct (assoc _ _); [done |];
       injection Hl as <-; intros [= <-]; auto].
  by rewrite Hc.
Qed.

End RunFacts.

(** X11. The third tab never raises: the test on the index guards the row
    lookup.  It renders its subheader and one more element, which is the
    notice exactly when the statement has no Total Revenue line. *)
Theorem tab3_never_raises (inp : Inputs) (q : DataFrame) :
  result (tab3 inp q) = Ok () ∧
  (∃ second, trace (tab3 inp q) = [revenue_header; second]) ∧
  (revenue_notice ∈ trace (tab3 inp q) ↔ in_index "Total Revenue" q = false).
Proof.
  rewrite tab3_spec. destruct (df_loc q "Total Revenue") as [row|e] eqn:Hrow.
  - assert (Hin : in_index "Total Revenue" q = true) by (apply in_index_loc; eauto).
    rewrite Hin. repeat split; eauto.
    + cbn [trace]. rewrite !elem_of_cons, elem_of_nil. unfold revenue_notice, revenue_header.
      intuition congruence.
    + done.
  - assert (Hin : in_index "Total Revenue" q = false).
    { destruct (in_index "Total Revenue" q) eqn:Hin; [|done].
      apply in_index_loc in Hin as [row Hrow']. congruence. }
    rewrite Hin. repeat split; eauto. cbn [trace]. intros _. rewrite !elem_of_cons. tauto.
Qed.

(** X12. A Total Revenue line all of whose values are missing is not
    treated like a missing line: a bar chart with no bars is plotted and the
    notice is not shown. *)
Theorem all_missing_revenue_plots_empty_chart (inp : Inputs) (q : DataFrame) (row : Series) :
  df_loc q "Total Revenue" = Ok row →
  Forall (λ e : string * pyval, isna e.2 = true) row →
  tab3 inp q
    = MkM [revenue_header;
           Render Tab3 (PlotlyChart (revenue_figure (symbol inp) []))] (Ok ()) ∧
  fig_data (revenue_figure (symbol inp) []) = [Bar [] [] "Total Revenue"] ∧
  revenue_notice ∉ trace (tab3 inp q).
Proof.
  intros Hrow Hall. rewrite tab3_spec, Hrow, (dropna_all_missing _ Hall).
  repeat split. cbn [trace]. rewrite !elem_of_cons, elem_of_nil.
  unfold revenue_notice, revenue_header. intuition congruence.
Qed.

(** X16. The series that is charted has no missing value, dropping
    missing values again changes nothing, and the periods and values handed
    to the bar trace line up one to one with its entries. *)
Theorem charted_series_is_clean_and_aligned (inp : Inputs) (q : DataFrame) (s : Series) :
  total_revenue q = Ok s →
  Forall (λ e : string * pyval, isna e.2 = false) s ∧
  dropna s = s ∧
  length (series_index s) = length (series_values s) ∧
  zip (series_index s) (series_values s) = s ∧
  fig_data (revenue_figure (symbol inp) s)
    = [Bar (series_index s) (series_values s) "Total Revenue"].
Proof.
  unfold total_revenue. destruct (df_loc q "Total Revenue") as [row|]; [|done].
  simpl. intros [= <-].
  split; [apply dropna_clean |]. split; [apply dropna_id, dropna_clean |].
  unfold series_index, series_values.
  split; [by rewrite !length_fmap |]. split; [apply zip_fst_snd | done].
Qed.

Lemma requests_prefix (tr1 tr2 : list event) :
  tr1 `prefix_of` tr2 → requests tr1 `prefix_of` requests tr2.
Proof. intros [k ->]. rewrite requests_app. by eexists. Qed.

Lemma elem_of_requests (ev : event) (tr : list event) :
  ev ∈ requests tr ↔ ev ∈ tr ∧ is_request ev = true.
Proof.
  unfold requests. rewrite !list_elem_of_In. apply List.filter_In.
Qed.

Section RequestFacts.
Variable container_repr : pyval -> string.
Variable to_string : DataFrame -> string.

(** The events under the spinner are an initial part of [fetch_events]. *)
Lemma spinner_block_trace (w : World) (inp : Inputs) :
  ∃ n, trace (spinner_block container_repr to_string w inp)
       = SpinnerStart "Fetching and analyzing data..."
         :: take n (fetch_events inp) ++ [SpinnerStop].
Proof.
  unfold spinner_block, with_spinner, fetch_statement. cbn [result trace].
  rewrite bind_request. split_outcome; cbn [result trace]; [| by exists 1].
  rewrite bind_request. split_outcome; cbn [result trace]; [| by exists 2].
  rewrite bind_eval. split_outcome; cbn [result trace]; [| by exists 2].
  rewrite format_extract, bind_eval.
  rewrite bind_request. split_outcome; cbn [result trace]; [| by exists 3].
  rewrite bind_request. split_outcome; cbn [result trace]; [| by exists 4].
  rewrite bind_request. split_outcome; cbn [result trace]; [| by exists 5].
  rewrite bind_request. split_outcome; cbn [result trace]; [| by exists 6].
  rewrite bind_request. split_outcome; cbn [result trace]; [| by exists 7].
  rewrite bind_request. split_outcome; cbn [result trace]; [| by exists 8].
  rewrite bind_render. by exists 9.
Qed.

(** X13. Requests go out in one fixed order: the download, the metadata,
    the six statements, then the completion request.  The requests under the
    spinner are an initial part of that list, a run makes at most nine, and
    the completion request is only made after all eight provider requests. *)
Theorem requests_in_fixed_order (w : World) (inp : Inputs) :
  requests (trace (spinner_block container_repr to_string w inp))
    `prefix_of` requests (fetched_trace inp) ∧
  (length (requests (trace (on_analyze container_repr to_string w inp))) ≤ 9)%nat ∧
  ∀ prompt,
    Complete prompt ∈ trace (on_analyze container_repr to_string w inp) →
    requests (trace (on_analyze container_repr to_string w inp))
      = requests (fetched_trace inp) ++ [Complete prompt].
Proof.
  assert (Hprefix : requests (trace (spinner_block container_repr to_string w inp))
                      `prefix_of` requests (fetched_trace inp)).
  { destruct (spinner_block_trace w inp) as [n ->].
    change (requests (fetched_trace inp)) with (requests (fetch_events inp)).
    change (requests (?x :: ?l ++ [SpinnerStop])) with (requests (l ++ [SpinnerStop])).
    rewrite requests_app. change (requests [SpinnerStop]) with (@nil event).
    rewrite app_nil_r. apply requests_prefix.
    exists (drop n (fetch_events inp)). by rewrite take_drop. }
  split; [done |].
  destruct (result (spinner_block container_repr to_string w inp)) as [p|e] eqn:Hp.
  - assert (Hreq : requests (trace (on_analyze container_repr to_string w inp))
                   = requests (fetched_trace inp) ++ [Complete (prompt_of p)]).
    { rewrite (on_analyze_fetched _ _ _ _ _ Hp).
      destruct (llm_complete w (prompt_of p)) as [r|e].
      - destruct (candlestick_figure inp p) as [fig|e]; cbn [trace].
        + rewrite tab3_spec. destruct (df_loc _ _); cbn [trace];
            reflexivity.
        + by rewrite requests_app.
      - cbn [trace]. by rewrite requests_app. }
    split; [rewrite Hreq; cbn; lia |].
    intros prompt Hin. rewrite Hreq.
    assert (Hin' : Complete prompt ∈ requests (trace (on_analyze container_repr to_string w inp)))
      by (by apply elem_of_requests).
    rewrite Hreq in Hin'. cbn in Hin'.
    rewrite !elem_of_cons, elem_of_nil in Hin'.
    assert (prompt = prompt_of p) as -> by intuition congruence. done.
  - rewrite (on_analyze_not_fetched _ _ _ _ _ Hp). cbn [trace]. split.
    + apply prefix_length in Hprefix.
      change (length (requests (fetched_trace inp))) with 8 in Hprefix. lia.
    + intros prompt Hin.
      destruct (spinner_block_requests container_repr to_string w inp) as [_ Hfresh].
      destruct (Hfresh prompt). by apply elem_of_requests.
Qed.

(** X15. Every request to the provider in a run is made for the symbol
    the user entered. *)
Theorem same_symbol_in_every_request (w : World) (inp : Inputs) :
  Forall (uses_symbol (symbol inp)) (trace (on_analyze container_repr to_string w inp)).
Proof.
  assert (Hfetch : Forall (uses_symbol (symbol inp)) (fetch_events inp))
    by (repeat constructor).
  assert (Hspin : Forall (uses_symbol (symbol inp))
                    (trace (spinner_block container_repr to_string w inp))).
  { destruct (spinner_block_trace w inp) as [n ->].
    constructor; [done |]. apply Forall_app. split; [by apply Forall_take |].
    by repeat constructor. }
  destruct (result (spinner_block container_repr to_string w inp)) as [p|e] eqn:Hp.
  - pose proof Hp as Hp'.
    apply spinner_block_ok in Hp'
      as (_ & _ & _ & _ & _ & _ & _ & _ & _ & _ & _ & _ & _ & Htr).
    rewrite Htr in Hspin.
    rewrite (on_analyze_fetched _ _ _ _ _ Hp).
    destruct (llm_complete w (prompt_of p)) as [r|e].
    + destruct (candlestick_figure inp p) as [fig|e]; cbn [trace].
      * rewrite tab3_spec. rewrite !Forall_app. split; [done |].
        split; [by repeat constructor |]. split; [by repeat constructor |].
        destruct (df_loc _ _); by repeat constructor.
      * rewrite Forall_app. split; [done | by repeat constructor].
    + cbn [trace]. rewrite Forall_app. split; [done | by repeat constructor].
  - by rewrite (on_analyze_not_fetched _ _ _ _ _ Hp).
Qed.

(** X14. When the completion call returns, the analysis column holds its
    subheader and the model's text wrapped in a div, rendered with HTML
    allowed; the text is put in as it is, also when a later section fails. *)
Theorem model_text_rendered_as_raw_html
    (w : World) (inp : Inputs) (p : Prepared) (r : CompletionResponse) :
  result (spinner_block container_repr to_string w inp) = Ok p →
  llm_complete w (prompt_of p) = Ok r →
  rendered_in LeftCol (trace (on_analyze container_repr to_string w inp))
    = [ Subheader ("Analysis for " +:+ symbol inp);
        Markdown ("<div class=" +:+ DQUOTE +:+ "stock-analysis" +:+ DQUOTE +:+ ">" +:+
                  resp_text r +:+ "</div>") true ] ∧
  occurs_in (resp_text r)
    ("<div class=" +:+ DQUOTE +:+ "stock-analysis" +:+ DQUOTE +:+ ">" +:+
     resp_text r +:+ "</div>").
Proof.
  intros Hp Hr. split.
  - rewrite (on_analyze_fetched _ _ _ _ _ Hp), Hr.
    destruct (candlestick_figure inp p) as [fig|e]; cbn [trace]; [| reflexivity].
    rewrite tab3_spec. destruct (df_loc _ _); reflexivity.
  - exists ("<div class=" +:+ DQUOTE +:+ "stock-analysis" +:+ DQUOTE +:+ ">"), "</div>".
    by rewrite !string_app_assoc.
Qed.

End RequestFacts.

(** ** The further properties at work on the demo world *)

Lemma extract_reads_only_tracked_fields_demo :
  Demo.info_with_sector !! "sector" = Some (VStr "Technology") ∧
  Demo.info !! "sector" = None ∧
  extract_specific_fundamental_data Demo.info_with_sector
    = extract_specific_fundamental_data Demo.info.
Proof.
  split; [reflexivity |]. split; [reflexivity |].
  apply extract_reads_only_tracked_fields.
  intros field Hin. cbn in Hin. rewrite !elem_of_cons, elem_of_nil in Hin.
  intuition (subst; reflexivity).
Defined.

Lemma format_reads_only_its_keys_demo :
  Demo.record_with_note !! "Note" = Some (VStr "unaudited") ∧
  Demo.record !! "Note" = None ∧
  format_specific_fundamental_data Demo.repr Demo.record_with_note
    = format_specific_fundamental_data Demo.repr Demo.record.
Proof.
  split; [reflexivity |]. split; [reflexivity |].
  apply format_reads_only_its_keys.
  intros key Hin. unfold top_level_keys in Hin.
  rewrite !elem_of_union, !elem_of_singleton in Hin.
  intuition (subst; reflexivity).
Defined.

Lemma format_key_error_is_first_missing_demo :
  format_specific_fundamental_data Demo.repr Demo.record_without_yields
    = Raise (KeyError "Dividend Yield (Hasil Dividen)") ∧
  Demo.record_without_yields !! "Dividend Yield (Hasil Dividen)" = None ∧
  Demo.record_without_yields !! "Return on Equity (ROE)" = None.
Proof.
  split; [reflexivity |].
  destruct (format_key_error_is_first_missing Demo.repr Demo.record_without_yields
              "Dividend Yield (Hasil Dividen)") as [Hnone _].
  - unfold template_keys. rewrite !elem_of_cons. tauto.
  - reflexivity.
  - split; [exact Hnone | reflexivity].
Defined.

Lemma only_open_close_and_metadata_reach_the_model_demo :
  result (spinner_block Demo.repr Demo.to_string (Demo.world Demo.quarterly) Demo.inputs)
    = Ok (Demo.prepared Demo.quarterly) ∧
  result (spinner_block Demo.repr Demo.to_string Demo.world_other Demo.inputs)
    = Ok Demo.prepared_other ∧
  df_column Demo.prices "High" = Ok [VFloat "188.44"; VFloat "185.88"] ∧
  df_column Demo.prices_other "High" = Ok [VFloat "190.0"; VFloat "191.0"] ∧
  prompts (trace (on_analyze Demo.repr Demo.to_string (Demo.world Demo.quarterly)
                    Demo.inputs))
    = prompts (trace (on_analyze Demo.repr Demo.to_string Demo.world_other Demo.inputs)).
Proof.
  split; [reflexivity |]. split; [reflexivity |].
  split; [reflexivity |]. split; [reflexivity |].
  apply (only_open_close_and_metadata_reach_the_model Demo.repr Demo.to_string
           (Demo.world Demo.quarterly) Demo.world_other Demo.inputs Demo.inputs
           (Demo.prepared Demo.quarterly) Demo.prepared_other); reflexivity.
Defined.

Lemma candlestick_fails_only_on_high_or_low_demo :
  result (spinner_block Demo.repr Demo.to_string Demo.world_no_high Demo.inputs)
    = Ok Demo.prepared_no_high ∧
  result (right_col Demo.inputs Demo.prepared_no_high) = Raise (KeyError "High") ∧
  trace (right_col Demo.inputs Demo.prepared_no_high) = [graph_header].
Proof.
  split; [reflexivity |]. split; [reflexivity |].
  apply (candlestick_fails_only_on_high_or_low Demo.repr Demo.to_string
           Demo.world_no_high Demo.inputs Demo.prepared_no_high (KeyError "High"));
    reflexivity.
Defined.

Lemma all_missing_revenue_plots_empty_chart_demo :
  df_loc Demo.quarterly_all_missing "Total Revenue"
    = Ok [("2024-03-31", NaN); ("2023-12-31", VNone)] ∧
  tab3 Demo.inputs Demo.quarterly_all_missing
    = MkM [revenue_header;
           Render Tab3 (PlotlyChart (revenue_figure "AAPL" []))] (Ok ()).
Proof.
  split; [reflexivity |].
  apply (all_missing_revenue_plots_empty_chart Demo.inputs Demo.quarterly_all_missing
           [("2024-03-31", NaN); ("2023-12-31", VNone)]).
  - reflexivity.
  - repeat constructor.
Defined.

Lemma model_text_rendered_as_raw_html_demo :
  result (spinner_block Demo.repr Demo.to_string (Demo.world Demo.quarterly) Demo.inputs)
    = Ok (Demo.prepared Demo.quarterly) ∧
  llm_complete (Demo.world Demo.quarterly) (prompt_of (Demo.prepared Demo.quarterly))
    = Ok Demo.answer ∧
  rendered_in LeftCol
    (trace (on_analyze Demo.repr Demo.to_string (Demo.world Demo.quarterly) Demo.inputs))
    = [ Subheader "Analysis for AAPL";
        Markdown ("<div class=" +:+ DQUOTE +:+ "stock-analysis" +:+ DQUOTE +:+ ">" +:+
                  "Tren naik." +:+ "</div>") true ].
Proof.
  split; [reflexivity |]. split; [reflexivity |].
  apply (model_text_rendered_as_raw_html Demo.repr Demo.to_string
           (Demo.world Demo.quarterly) Demo.inputs (Demo.prepared Demo.quarterly)
           Demo.answer); reflexivity.
Defined.

Lemma charted_series_is_clean_and_aligned_demo :
  total_revenue Demo.quarterly
    = Ok [ ("2024-03-31", VFloat "90753000000.0");
           ("2023-09-30", VFloat "89498000000.0") ] ∧
  fig_data (revenue_figure "AAPL"
              [ ("2024-03-31", VFloat "90753000000.0");
                ("2023-09-30", VFloat "89498000000.0") ])
    = [ Bar ["2024-03-31"; "2023-09-30"]
            [VFloat "90753000000.0"; VFloat "89498000000.0"] "Total Revenue" ].
Proof.
  split; [reflexivity |].
  apply (charted_series_is_clean_and_aligned Demo.inputs Demo.quarterly
           [ ("2024-03-31", VFloat "90753000000.0");
             ("2023-09-30", VFloat "89498000000.0") ]).
  reflexivity.
Defined.
